(** * Anthropic docs MCP server: cost calculator and relevance search

    A shallow embedding of the documentation service
    ([services/documentation], [constants]) and the properties of its two
    computations: [calculateCost] and [searchDocs].

    JavaScript numbers are IEEE-754 binary64 values; they are modelled with
    the executable specification of the Standard Library ([SpecFloat]) at
    precision 53 and maximal exponent 1024, so every arithmetic step rounds
    exactly as the program does.  Strings are ASCII strings: the catalogue
    holds ASCII text only. *)

From Stdlib Require Import ZArith Lia Bool List String Ascii.
From Stdlib Require Import Floats.SpecFloat.
From Stdlib Require Import Sorting.Permutation Sorting.Sorted.
Import ListNotations.

Set Warnings "-register-all".
#[local] Open Scope string_scope.
#[local] Open Scope list_scope.

(* ------------------------------------------------------------------ *)
(** ** Numbers *)

Definition number : Type := spec_float.

Module Num.

Definition prec : Z := 53.
Definition emax : Z := 1024.

Definition add : number -> number -> number := SFadd prec emax.
Definition sub : number -> number -> number := SFsub prec emax.
Definition mul : number -> number -> number := SFmul prec emax.
Definition div : number -> number -> number := SFdiv prec emax.

(** The number denoted by an integer literal. *)
Definition of_Z (z : Z) : number := binary_normalize prec emax z 0 false.

(** The number denoted by the decimal literal [m / 10^k], for [m] and
    [10^k] below [2^53]: the correctly rounded quotient of two exact
    integers is the double nearest to the decimal. *)
Definition dec (m : Z) (k : Z) : number := div (of_Z m) (of_Z (10 ^ k)).

Definition zero : number := S754_zero false.
Definition one : number := of_Z 1.

(** [x < y], [x <= y], [x > y] as the language evaluates them: false
    whenever an operand is NaN. *)
Definition ltb (x y : number) : bool := SFltb x y.
Definition leb (x y : number) : bool := SFleb x y.
Definition gtb (x y : number) : bool := SFltb y x.

(** Truthiness of a number: everything but [0], [-0] and [NaN]. *)
Definition truthy (x : number) : bool :=
  match x with
  | S754_zero _ | S754_nan => false
  | _ => true
  end.

Definition valid (x : number) : bool := valid_binary prec emax x.

Definition finite (x : number) : bool :=
  match x with
  | S754_zero _ | S754_finite _ _ _ => true
  | _ => false
  end.

(** Sign bit clear and not NaN: [+0], a positive finite number or
    [+Infinity]. *)
Definition nonneg (x : number) : bool :=
  match x with
  | S754_zero false | S754_infinity false | S754_finite false _ _ => true
  | _ => false
  end.

End Num.

Declare Scope js_scope.
Delimit Scope js_scope with js.
Infix "+" := Num.add : js_scope.
Infix "-" := Num.sub : js_scope.
Infix "*" := Num.mul : js_scope.
Infix "/" := Num.div : js_scope.

(** An optional property of an object: absent ([undefined]) or a number.
    [is_truthy] is the test [if (obj.prop)]. *)
Definition is_truthy (o : option number) : bool :=
  match o with
  | Some x => Num.truthy x
  | None => false
  end.

(* ------------------------------------------------------------------ *)
(** ** Catalogue types ([types.ts]) *)

Inductive Tier := flagship | balanced | fast.

Module ModelPricing.
Record t := mk {
  input : number;
  output : number;
  cacheWrite5min : option number;
  cacheWrite1hr : option number;
  cacheRead : option number;
  longContextInput : option number;
  longContextOutput : option number;
  batchDiscount : string
}.
End ModelPricing.

Module ClaudeModel.
Record t := mk {
  name : string;
  apiId : string;
  alias : string;
  tier : Tier;
  releaseDate : string;
  knowledgeCutoff : string;
  contextWindow : number;
  contextWindowExtended : option number;
  maxOutput : number;
  pricing : ModelPricing.t;
  features : list string
}.
End ClaudeModel.

(* ------------------------------------------------------------------ *)
(** ** Constants ([constants.ts]) *)

Definition opus_4_5 : ClaudeModel.t :=
  {| ClaudeModel.name := "Claude Opus 4.5";
     ClaudeModel.apiId := "claude-opus-4-5-20251101";
     ClaudeModel.alias := "claude-opus-4-5";
     ClaudeModel.tier := flagship;
     ClaudeModel.releaseDate := "2025-11-24";
     ClaudeModel.knowledgeCutoff := "March 2025";
     ClaudeModel.contextWindow := Num.of_Z 200000;
     ClaudeModel.contextWindowExtended := None;
     ClaudeModel.maxOutput := Num.of_Z 64000;
     ClaudeModel.pricing :=
       {| ModelPricing.input := Num.dec 500 2;
          ModelPricing.output := Num.dec 2500 2;
          ModelPricing.cacheWrite5min := Some (Num.dec 625 2);
          ModelPricing.cacheWrite1hr := Some (Num.dec 1000 2);
          ModelPricing.cacheRead := Some (Num.dec 50 2);
          ModelPricing.longContextInput := None;
          ModelPricing.longContextOutput := None;
          ModelPricing.batchDiscount := "50%" |};
     ClaudeModel.features :=
       [ "Extended thinking (preserved across turns by default)";
         "Effort parameter (low/medium/high)";
         "Computer use + zoom tool";
         "Context awareness";
         "Vision (images, PDFs, spreadsheets)";
         "Best-in-class coding (80.9% SWE-bench Verified)";
         "Memory tool for persistent state";
         "Context compaction" ]%string |}.

Definition sonnet_4_5 : ClaudeModel.t :=
  {| ClaudeModel.name := "Claude Sonnet 4.5";
     ClaudeModel.apiId := "claude-sonnet-4-5-20250929";
     ClaudeModel.alias := "claude-sonnet-4-5";
     ClaudeModel.tier := balanced;
     ClaudeModel.releaseDate := "2025-09-29";
     ClaudeModel.knowledgeCutoff := "January 2025";
     ClaudeModel.contextWindow := Num.of_Z 200000;
     ClaudeModel.contextWindowExtended := Some (Num.of_Z 1000000);
     ClaudeModel.maxOutput := Num.of_Z 64000;
     ClaudeModel.pricing :=
       {| ModelPricing.input := Num.dec 300 2;
          ModelPricing.output := Num.dec 1500 2;
          ModelPricing.cacheWrite5min := Some (Num.dec 375 2);
          ModelPricing.cacheWrite1hr := Some (Num.dec 600 2);
          ModelPricing.cacheRead := Some (Num.dec 30 2);
          ModelPricing.longContextInput := Some (Num.dec 600 2);
          ModelPricing.longContextOutput := Some (Num.dec 2250 2);
          ModelPricing.batchDiscount := "50%" |};
     ClaudeModel.features :=
       [ "Extended thinking";
         "1M context window (beta, tier 4+)";
         "Computer use";
         "Context awareness";
         "Vision";
         "77.2% SWE-bench Verified";
         "Best balance of speed/cost/quality" ]%string |}.

Definition haiku_4_5 : ClaudeModel.t :=
  {| ClaudeModel.name := "Claude Haiku 4.5";
     ClaudeModel.apiId := "claude-haiku-4-5-20251001";
     ClaudeModel.alias := "claude-haiku-4-5";
     ClaudeModel.tier := fast;
     ClaudeModel.releaseDate := "2025-10-15";
     ClaudeModel.knowledgeCutoff := "February 2025";
     ClaudeModel.contextWindow := Num.of_Z 200000;
     ClaudeModel.contextWindowExtended := None;
     ClaudeModel.maxOutput := Num.of_Z 64000;
     ClaudeModel.pricing :=
       {| ModelPricing.input := Num.dec 100 2;
          ModelPricing.output := Num.dec 500 2;
          ModelPricing.cacheWrite5min := Some (Num.dec 125 2);
          ModelPricing.cacheWrite1hr := Some (Num.dec 200 2);
          ModelPricing.cacheRead := Some (Num.dec 10 2);
          ModelPricing.longContextInput := None;
          ModelPricing.longContextOutput := None;
          ModelPricing.batchDiscount := "50%" |};
     ClaudeModel.features :=
       [ "Extended thinking";
         "Computer use";
         "Context awareness";
         "Vision";
         "73.3% SWE-bench Verified";
         "4-5x faster than Sonnet 4.5";
         "Best for high-volume, latency-sensitive tasks" ]%string |}.

(** [CLAUDE_MODELS], with its keys in insertion order (the order of
    [Object.entries]). *)
Definition CLAUDE_MODELS : list (string * ClaudeModel.t) :=
  [ ("opus_4_5"%string, opus_4_5);
    ("sonnet_4_5"%string, sonnet_4_5);
    ("haiku_4_5"%string, haiku_4_5) ].

Definition Object_entries {A : Type} (o : list (string * A)) : list (string * A) := o.

(** [obj[key]] on own properties.  Keys naming members of
    [Object.prototype] ([constructor], [toString], ...) resolve through the
    prototype chain in the program and are outside this model: statements
    over unknown keys exclude them explicitly. *)
Fixpoint get {A : Type} (o : list (string * A)) (key : string) : option A :=
  match o with
  | [] => None
  | (k, v) :: o' => if String.eqb k key then Some v else get o' key
  end.

Definition Object_prototype_keys : list string :=
  [ "constructor"; "__defineGetter__"; "__defineSetter__"; "hasOwnProperty";
    "__lookupGetter__"; "__lookupSetter__"; "isPrototypeOf";
    "propertyIsEnumerable"; "toString"; "valueOf"; "__proto__";
    "toLocaleString" ]%string.

Module PRICING_MULTIPLIERS.
Definition cacheWrite5min : number := Num.dec 125 2.
Definition cacheWrite1hr : number := Num.dec 200 2.
Definition cacheRead : number := Num.dec 10 2.
Definition batchDiscount : number := Num.dec 50 2.
Definition longContextInput : number := Num.dec 200 2.
Definition longContextOutput : number := Num.dec 150 2.
End PRICING_MULTIPLIERS.

(* ------------------------------------------------------------------ *)
(** ** Cost calculator *)

Module CostCalculation.
Record t := mk {
  model : string;
  inputTokens : number;
  outputTokens : number;
  thinkingTokens : number;
  totalOutputTokens : number;
  baseCost : number;
  cacheDiscount : number;
  batchDiscount : number;
  longContextPremium : number;
  finalCost : number;
  inputCost : number;   (* breakdown.inputCost *)
  outputCost : number   (* breakdown.outputCost *)
}.
End CostCalculation.

Section Calculator.
Local Open Scope js_scope.

Variable model : ClaudeModel.t.
Variables inputTokens outputTokens thinkingTokens : number.
Variable useCache : bool.
Variable cacheHitRatio : number.
Variables useBatch longContext : bool.

Let pricing := ClaudeModel.pricing model.

(** [inputPrice] after the long-context switch. *)
Definition selectedInputPrice : number :=
  let inputPrice := ModelPricing.input pricing in
  match ModelPricing.longContextInput pricing with
  | Some p => if longContext && Num.truthy p then p else inputPrice
  | None => inputPrice
  end.

(** [outputPrice] after the long-context switch. *)
Definition selectedOutputPrice : number :=
  let outputPrice := ModelPricing.output pricing in
  match ModelPricing.longContextOutput pricing with
  | Some p => if longContext && Num.truthy p then p else outputPrice
  | None => outputPrice
  end.

(** The object [result] built by [calculateCost] for a catalogue model. *)
Definition costCalculation : CostCalculation.t :=
  let totalOutputTokens := outputTokens + thinkingTokens in
  let inputPrice := selectedInputPrice in
  let outputPrice := selectedOutputPrice in
  let inputCost := (inputTokens / Num.of_Z 1000000) * inputPrice in
  let outputCost := (totalOutputTokens / Num.of_Z 1000000) * outputPrice in
  let cacheDiscount := Num.zero in
  let '(inputCost, cacheDiscount) :=
    if useCache then
      let cacheHits := inputTokens * cacheHitRatio in
      let cacheMisses := inputTokens * (Num.one - cacheHitRatio) in
      let cacheHitCost :=
        (cacheHits / Num.of_Z 1000000) * inputPrice * PRICING_MULTIPLIERS.cacheRead in
      let cacheMissCost :=
        (cacheMisses / Num.of_Z 1000000) * inputPrice * PRICING_MULTIPLIERS.cacheWrite5min in
      let originalInputCost := inputCost in
      let inputCost := cacheHitCost + cacheMissCost in
      (inputCost, originalInputCost - inputCost)
    else (inputCost, cacheDiscount) in
  let baseCost := inputCost + outputCost in
  let batchDiscount := Num.zero in
  let '(baseCost, batchDiscount) :=
    if useBatch then (baseCost * Num.dec 5 1, baseCost * Num.dec 5 1)
    else (baseCost, batchDiscount) in
  {| CostCalculation.model := ClaudeModel.name model;
     CostCalculation.inputTokens := inputTokens;
     CostCalculation.outputTokens := outputTokens;
     CostCalculation.thinkingTokens := thinkingTokens;
     CostCalculation.totalOutputTokens := totalOutputTokens;
     CostCalculation.baseCost :=
       inputCost + outputCost
       + (if Num.gtb batchDiscount Num.zero then batchDiscount else Num.zero);
     CostCalculation.cacheDiscount := cacheDiscount;
     CostCalculation.batchDiscount := batchDiscount;
     CostCalculation.longContextPremium :=
       if longContext
       then (inputPrice - ModelPricing.input pricing) * (inputTokens / Num.of_Z 1000000)
       else Num.zero;
     CostCalculation.finalCost := baseCost;
     CostCalculation.inputCost := inputCost;
     CostCalculation.outputCost := outputCost |}.

End Calculator.

(* ------------------------------------------------------------------ *)
(** ** Host functions

    Number formatting and JSON serialisation are provided by the
    JavaScript runtime; [toLocaleString] depends on its locale.  The
    service only concatenates what they return, so they are taken as
    parameters. *)

Inductive JSON :=
| JNull
| JNumber (x : number)
| JString (s : string)
| JArray (xs : list JSON)
| JObject (props : list (string * JSON)).

Class Runtime := {
  toLocaleString : number -> string;        (* x.toLocaleString() *)
  toFixed : number -> nat -> string;        (* x.toFixed(digits) *)
  Number_toString : number -> string;       (* `${x}` *)
  JSON_stringify : JSON -> string;          (* JSON.stringify(v) *)
  JSON_stringify_pretty : JSON -> string    (* JSON.stringify(v, null, 2) *)
}.

Inductive Format := markdown | json.

Definition nl : string := String (ascii_of_nat 10) EmptyString.
Definition dquote : string := String (ascii_of_nat 34) EmptyString.

(** [xs.join(sep)] *)
Definition join (sep : string) (xs : list string) : string := String.concat sep xs.

(** Properties whose value is [undefined] are dropped by [JSON.stringify]. *)
Definition optional (key : string) (o : option number) : list (string * JSON) :=
  match o with
  | Some x => [(key, JNumber x)]
  | None => []
  end.

Definition Tier_toString (t : Tier) : string :=
  match t with
  | flagship => "flagship"
  | balanced => "balanced"
  | fast => "fast"
  end.

Definition ModelPricing_toJSON (p : ModelPricing.t) : JSON :=
  JObject
    ([ ("input"%string, JNumber (ModelPricing.input p));
       ("output"%string, JNumber (ModelPricing.output p)) ]
     ++ optional "cacheWrite5min" (ModelPricing.cacheWrite5min p)
     ++ optional "cacheWrite1hr" (ModelPricing.cacheWrite1hr p)
     ++ optional "cacheRead" (ModelPricing.cacheRead p)
     ++ optional "longContextInput" (ModelPricing.longContextInput p)
     ++ optional "longContextOutput" (ModelPricing.longContextOutput p)
     ++ [ ("batchDiscount"%string, JString (ModelPricing.batchDiscount p)) ]).

Definition ClaudeModel_toJSON (m : ClaudeModel.t) : JSON :=
  JObject
    ([ ("name"%string, JString (ClaudeModel.name m));
       ("apiId"%string, JString (ClaudeModel.apiId m));
       ("alias"%string, JString (ClaudeModel.alias m));
       ("tier"%string, JString (Tier_toString (ClaudeModel.tier m)));
       ("releaseDate"%string, JString (ClaudeModel.releaseDate m));
       ("knowledgeCutoff"%string, JString (ClaudeModel.knowledgeCutoff m));
       ("contextWindow"%string, JNumber (ClaudeModel.contextWindow m)) ]
     ++ optional "contextWindowExtended" (ClaudeModel.contextWindowExtended m)
     ++ [ ("maxOutput"%string, JNumber (ClaudeModel.maxOutput m));
          ("pricing"%string, ModelPricing_toJSON (ClaudeModel.pricing m));
          ("features"%string, JArray (map JString (ClaudeModel.features m))) ]).

Definition PRICING_MULTIPLIERS_toJSON : JSON :=
  JObject
    [ ("cacheWrite5min"%string, JNumber PRICING_MULTIPLIERS.cacheWrite5min);
      ("cacheWrite1hr"%string, JNumber PRICING_MULTIPLIERS.cacheWrite1hr);
      ("cacheRead"%string, JNumber PRICING_MULTIPLIERS.cacheRead);
      ("batchDiscount"%string, JNumber PRICING_MULTIPLIERS.batchDiscount);
      ("longContextInput"%string, JNumber PRICING_MULTIPLIERS.longContextInput);
      ("longContextOutput"%string, JNumber PRICING_MULTIPLIERS.longContextOutput) ].

Module THINKING_CONFIG.
Definition minBudget : number := Num.of_Z 1024.
Definition recommendedStart : number := Num.of_Z 16000.
Definition largeBudgetThreshold : number := Num.of_Z 32000.
Definition maxWithInterleaved : number := Num.of_Z 200000.
Definition rules : list string :=
  [ "budget_tokens must be at least 1,024";
    "Standard mode: budget_tokens must be LESS than max_tokens";
    "Interleaved mode with tools: budget_tokens can EXCEED max_tokens (uses full context window)";
    "Thinking tokens are billed as OUTPUT tokens";
    "Previous thinking blocks are auto-stripped from context (except Opus 4.5 which preserves them by default)";
    "For budgets above 32K, use batch processing to avoid networking issues";
    "Opus 4.5 preserves thinking blocks across turns for better multi-step reasoning" ]%string.
End THINKING_CONFIG.

Module CONTEXT_LIMITS.
Definition standard : number := Num.of_Z 200000.
Definition extended : number := Num.of_Z 1000000.
Definition maxOutput : number := Num.of_Z 64000.
Definition longContextThreshold : number := Num.of_Z 200000.
End CONTEXT_LIMITS.

Module BetaHeader.
Record t := mk {
  name : string;
  value : string;
  purpose : string;
  requiredFor : string;
  models : option (list string)
}.
End BetaHeader.

Definition BETA_HEADERS : list BetaHeader.t :=
  [ {| BetaHeader.name := "Interleaved Thinking";
       BetaHeader.value := "interleaved-thinking-2025-05-14";
       BetaHeader.purpose := "Enable thinking between tool calls";
       BetaHeader.requiredFor := "Extended thinking WITH tools (uses beta.messages.create)";
       BetaHeader.models := None |};
    {| BetaHeader.name := "Context Management";
       BetaHeader.value := "context-management-2025-06-27";
       BetaHeader.purpose := "Auto-compaction when approaching context limits";
       BetaHeader.requiredFor := "Long-running agent sessions, automatic context management";
       BetaHeader.models := None |};
    {| BetaHeader.name := "Long Context (1M)";
       BetaHeader.value := "context-1m-2025-08-07";
       BetaHeader.purpose := "Enable 1 million token context window";
       BetaHeader.requiredFor := "Processing very large documents or codebases";
       BetaHeader.models :=
         Some [ "claude-sonnet-4-5-20250929"; "claude-sonnet-4-20250514" ]%string |} ].

Module ApiMode.
Record t := mk {
  name : string;
  function : string;
  apiCall : string;
  betaHeaders : list string;
  maxOutput : number;
  thinkingBudgetRule : string;
  description : string
}.
End ApiMode.

Definition API_MODES : list ApiMode.t :=
  [ {| ApiMode.name := "Standard";
       ApiMode.function := "chat()";
       ApiMode.apiCall := "anthropic.messages.create()";
       ApiMode.betaHeaders := [];
       ApiMode.maxOutput := Num.of_Z 64000;
       ApiMode.thinkingBudgetRule := "N/A - no thinking";
       ApiMode.description :=
         "Regular chat without extended thinking. Use for simple queries and conversations." |};
    {| ApiMode.name := "Extended Thinking";
       ApiMode.function := "chatWithThinking()";
       ApiMode.apiCall := "anthropic.messages.create()";
       ApiMode.betaHeaders := [];
       ApiMode.maxOutput := Num.of_Z 64000;
       ApiMode.thinkingBudgetRule := "budget_tokens < max_tokens";
       ApiMode.description :=
         "Extended thinking WITHOUT tools. NO beta headers needed. Model reasons before responding." |};
    {| ApiMode.name := "Interleaved Thinking";
       ApiMode.function := "chatWithInterleavedThinking()";
       ApiMode.apiCall := "anthropic.beta.messages.create()";
       ApiMode.betaHeaders := [ "interleaved-thinking-2025-05-14"%string ];
       ApiMode.maxOutput := Num.of_Z 64000;
       ApiMode.thinkingBudgetRule :=
         "budget_tokens can exceed max_tokens (uses full 200K context)";
       ApiMode.description :=
         "Thinking BETWEEN tool calls. REQUIRES beta headers. Best for complex agentic workflows." |} ].

Module EffortLevel.
Record t := mk {
  name : string;
  description : string;
  tokenUsage : string
}.
End EffortLevel.

Definition EFFORT_LEVELS : list (string * EffortLevel.t) :=
  [ ("low"%string,
     {| EffortLevel.name := "Low";
        EffortLevel.description :=
          "Fast, minimal thinking. Good for simple tasks or high-volume automation.";
        EffortLevel.tokenUsage := "Lowest" |});
    ("medium"%string,
     {| EffortLevel.name := "Medium";
        EffortLevel.description :=
          "Balanced. Matches Sonnet 4.5's peak performance while using 76% fewer output tokens than High.";
        EffortLevel.tokenUsage := "Moderate" |});
    ("high"%string,
     {| EffortLevel.name := "High";
        EffortLevel.description :=
          "Default. Exhaustive reasoning. Best for complex problems requiring deep analysis.";
        EffortLevel.tokenUsage := "Highest" |}) ].

(* ------------------------------------------------------------------ *)
(** ** Documentation service ([services/documentation.ts]) *)

Section Service.
Context {rt : Runtime}.
Local Open Scope string_scope.

(** Accumulating [md += piece] over the pieces of a loop. *)
Definition pieces (xs : list string) : string := String.concat EmptyString xs.

Definition fromEntries (f : ClaudeModel.t -> JSON)
    (models : list (string * ClaudeModel.t)) : JSON :=
  JObject (map (fun '(key, model) => (key, f model)) models).

(** *** Model info *)

Definition formatModelMarkdown (model : ClaudeModel.t) : string :=
  let pricing := ClaudeModel.pricing model in
  join nl
    [ "## " ++ ClaudeModel.name model;
      EmptyString;
      "**API ID:** `" ++ ClaudeModel.apiId model ++ "`";
      "**Alias:** `" ++ ClaudeModel.alias model ++ "`";
      "**Tier:** " ++ Tier_toString (ClaudeModel.tier model);
      "**Release Date:** " ++ ClaudeModel.releaseDate model;
      "**Knowledge Cutoff:** " ++ ClaudeModel.knowledgeCutoff model;
      EmptyString;
      "### Token Limits";
      "- **Context Window:** " ++ toLocaleString (ClaudeModel.contextWindow model) ++ " tokens";
      match ClaudeModel.contextWindowExtended model with
      | Some x =>
          if Num.truthy x
          then "- **Extended Context (beta):** " ++ toLocaleString x ++ " tokens"
          else EmptyString
      | None => EmptyString
      end;
      "- **Max Output:** " ++ toLocaleString (ClaudeModel.maxOutput model) ++ " tokens";
      EmptyString;
      "### Pricing (per million tokens)";
      "- **Input:** $" ++ toFixed (ModelPricing.input pricing) 2;
      "- **Output:** $" ++ toFixed (ModelPricing.output pricing) 2;
      match ModelPricing.longContextInput pricing with
      | Some x =>
          if Num.truthy x
          then "- **Long Context Input (>200K):** $" ++ toFixed x 2
          else EmptyString
      | None => EmptyString
      end;
      match ModelPricing.longContextOutput pricing with
      | Some x =>
          if Num.truthy x
          then "- **Long Context Output (>200K):** $" ++ toFixed x 2
          else EmptyString
      | None => EmptyString
      end;
      "- **Batch Discount:** " ++ ModelPricing.batchDiscount pricing;
      EmptyString;
      "### Features";
      join nl (map (fun f => "- " ++ f) (ClaudeModel.features model)) ].

Definition getModelInfo (modelKey : string) (format : Format) : string :=
  if String.eqb modelKey "all" then
    let models := Object_entries CLAUDE_MODELS in
    match format with
    | json => JSON_stringify_pretty (fromEntries ClaudeModel_toJSON CLAUDE_MODELS)
    | markdown =>
        join (nl ++ nl ++ "---" ++ nl ++ nl)
             (map (fun '(_, model) => formatModelMarkdown model) models)
    end
  else
    match get CLAUDE_MODELS modelKey with
    | None =>
        "Error: Model '" ++ modelKey
        ++ "' not found. Available: opus_4_5, sonnet_4_5, haiku_4_5"
    | Some model =>
        match format with
        | json => JSON_stringify_pretty (ClaudeModel_toJSON model)
        | markdown => formatModelMarkdown model
        end
    end.

(** The list [models] of [getPricing] and [getTokenLimits]: every entry
    for ["all"], otherwise the single entry of the key, filtered on the
    model being defined. *)
Definition selectModels (modelKey : string) : list (string * ClaudeModel.t) :=
  if String.eqb modelKey "all" then Object_entries CLAUDE_MODELS
  else
    match get CLAUDE_MODELS modelKey with
    | Some m => [(modelKey, m)]
    | None => []
    end.

(** *** Pricing *)

Definition getPricing (modelKey : string) (includeDiscounts : bool)
    (format : Format) : string :=
  let models := selectModels modelKey in
  if Nat.eqb (List.length models) 0 then
    "Error: Model '" ++ modelKey ++ "' not found."
  else
    match format with
    | json =>
        JSON_stringify_pretty
          (fromEntries
             (fun model =>
                JObject
                  ([ ("model", JString (ClaudeModel.name model));
                     ("pricing", ModelPricing_toJSON (ClaudeModel.pricing model)) ]
                   ++ (if includeDiscounts
                       then [ ("multipliers", PRICING_MULTIPLIERS_toJSON) ]
                       else []))%list)
             models)
    | markdown =>
        let md := "# Claude 4.5 Pricing" ++ nl ++ nl in
        let md := md ++ "| Model | Input ($/MTok) | Output ($/MTok) | Batch Discount |" ++ nl in
        let md := md ++ "|-------|----------------|-----------------|----------------|" ++ nl in
        let md :=
          md ++ pieces
            (map (fun '(_, model) =>
                    let pricing := ClaudeModel.pricing model in
                    "| " ++ ClaudeModel.name model
                    ++ " | $" ++ toFixed (ModelPricing.input pricing) 2
                    ++ " | $" ++ toFixed (ModelPricing.output pricing) 2
                    ++ " | " ++ ModelPricing.batchDiscount pricing ++ " |" ++ nl)
                 models) in
        if includeDiscounts then
          let md := md ++ nl ++ "## Discount Multipliers" ++ nl ++ nl in
          let md := md ++ "- **Cache Write (5min):** "
                       ++ Number_toString PRICING_MULTIPLIERS.cacheWrite5min
                       ++ "x base input" ++ nl in
          let md := md ++ "- **Cache Write (1hr):** "
                       ++ Number_toString PRICING_MULTIPLIERS.cacheWrite1hr
                       ++ "x base input" ++ nl in
          let md := md ++ "- **Cache Read:** "
                       ++ Number_toString PRICING_MULTIPLIERS.cacheRead
                       ++ "x base input (90% savings)" ++ nl in
          let md := md ++ "- **Batch API:** "
                       ++ Number_toString PRICING_MULTIPLIERS.batchDiscount
                       ++ "x all tokens (50% savings)" ++ nl in
          let md := md ++ "- **Long Context Input (>200K):** "
                       ++ Number_toString PRICING_MULTIPLIERS.longContextInput
                       ++ "x input" ++ nl in
          let md := md ++ "- **Long Context Output (>200K):** "
                       ++ Number_toString PRICING_MULTIPLIERS.longContextOutput
                       ++ "x output" ++ nl in
          md
        else md
    end.

(** *** Token limits *)

Definition thinkingBudgetLimits : string :=
  nl ++ "## Thinking Budget Limits" ++ nl ++ nl
  ++ "- **Minimum:** " ++ toLocaleString THINKING_CONFIG.minBudget ++ " tokens" ++ nl
  ++ "- **Recommended Start:** " ++ toLocaleString THINKING_CONFIG.recommendedStart
  ++ " tokens" ++ nl
  ++ "- **Large Budget Threshold:** " ++ toLocaleString THINKING_CONFIG.largeBudgetThreshold
  ++ " tokens (use batch processing above this)" ++ nl
  ++ "- **Max with Interleaved:** " ++ toLocaleString THINKING_CONFIG.maxWithInterleaved
  ++ " tokens (full context window)" ++ nl.

Definition tokenLimitsHeader : string :=
  "# Token Limits" ++ nl ++ nl
  ++ "| Model | Context Window | Extended Context | Max Output |" ++ nl
  ++ "|-------|----------------|------------------|------------|" ++ nl.

Definition tokenLimitsRow (model : ClaudeModel.t) : string :=
  let extended :=
    match ClaudeModel.contextWindowExtended model with
    | Some x =>
        if Num.truthy x
        then toLocaleString (x / Num.of_Z 1000)%js ++ "K (beta)"
        else "N/A"
    | None => "N/A"
    end in
  "| " ++ ClaudeModel.name model
  ++ " | " ++ toLocaleString (ClaudeModel.contextWindow model / Num.of_Z 1000)%js ++ "K"
  ++ " | " ++ extended
  ++ " | " ++ toLocaleString (ClaudeModel.maxOutput model / Num.of_Z 1000)%js ++ "K |" ++ nl.

Definition getTokenLimits (modelKey : string) (format : Format) : string :=
  let models := selectModels modelKey in
  match format with
  | json =>
      JSON_stringify_pretty
        (JObject
           [ ("models",
              fromEntries
                (fun model =>
                   JObject
                     ([ ("contextWindow", JNumber (ClaudeModel.contextWindow model)) ]
                      ++ optional "contextWindowExtended"
                           (ClaudeModel.contextWindowExtended model)
                      ++ [ ("maxOutput", JNumber (ClaudeModel.maxOutput model)) ])%list)
                models);
             ("limits",
              JObject
                [ ("standard", JNumber CONTEXT_LIMITS.standard);
                  ("extended", JNumber CONTEXT_LIMITS.extended);
                  ("maxOutput", JNumber CONTEXT_LIMITS.maxOutput);
                  ("longContextThreshold", JNumber CONTEXT_LIMITS.longContextThreshold) ]);
             ("thinking",
              JObject
                [ ("minBudget", JNumber THINKING_CONFIG.minBudget);
                  ("recommendedStart", JNumber THINKING_CONFIG.recommendedStart);
                  ("largeBudgetThreshold", JNumber THINKING_CONFIG.largeBudgetThreshold) ]) ])
  | markdown =>
      let md := tokenLimitsHeader in
      let md := md ++ pieces (map (fun '(_, model) => tokenLimitsRow model) models) in
      md ++ thinkingBudgetLimits
  end.

End Service.

Section Topics.
Context {rt : Runtime}.
Local Open Scope string_scope.

(** *** Thinking configuration *)

Definition THINKING_CONFIG_toJSON : JSON :=
  JObject
    [ ("minBudget", JNumber THINKING_CONFIG.minBudget);
      ("recommendedStart", JNumber THINKING_CONFIG.recommendedStart);
      ("largeBudgetThreshold", JNumber THINKING_CONFIG.largeBudgetThreshold);
      ("maxWithInterleaved", JNumber THINKING_CONFIG.maxWithInterleaved);
      ("rules", JArray (map JString THINKING_CONFIG.rules)) ].

Definition ApiMode_toJSON (mode : ApiMode.t) : JSON :=
  JObject
    [ ("name", JString (ApiMode.name mode));
      ("function", JString (ApiMode.function mode));
      ("apiCall", JString (ApiMode.apiCall mode));
      ("betaHeaders", JArray (map JString (ApiMode.betaHeaders mode)));
      ("maxOutput", JNumber (ApiMode.maxOutput mode));
      ("thinkingBudgetRule", JString (ApiMode.thinkingBudgetRule mode));
      ("description", JString (ApiMode.description mode)) ].

Definition EffortLevel_toJSON (level : EffortLevel.t) : JSON :=
  JObject
    [ ("name", JString (EffortLevel.name level));
      ("description", JString (EffortLevel.description level));
      ("tokenUsage", JString (EffortLevel.tokenUsage level)) ].

Definition getThinkingConfig (includeRules includeApiModes : bool)
    (format : Format) : string :=
  match format with
  | json =>
      JSON_stringify_pretty
        (JObject
           ([ ("config", THINKING_CONFIG_toJSON) ]
            ++ (if includeApiModes
                then [ ("apiModes", JArray (map ApiMode_toJSON API_MODES)) ]
                else [])
            ++ [ ("effortLevels",
                  JObject (map (fun '(key, level) => (key, EffortLevel_toJSON level))
                               EFFORT_LEVELS)) ])%list)
  | markdown =>
      let md := "# Extended Thinking Configuration" ++ nl ++ nl in
      let md := md ++ "## Budget Limits" ++ nl ++ nl in
      let md := md ++ "- **Minimum budget_tokens:** "
                   ++ toLocaleString THINKING_CONFIG.minBudget ++ nl in
      let md := md ++ "- **Recommended start:** "
                   ++ toLocaleString THINKING_CONFIG.recommendedStart ++ nl in
      let md := md ++ "- **Large budget threshold:** "
                   ++ toLocaleString THINKING_CONFIG.largeBudgetThreshold
                   ++ " (use batch processing)" ++ nl in
      let md := md ++ "- **Max with interleaved thinking:** "
                   ++ toLocaleString THINKING_CONFIG.maxWithInterleaved
                   ++ " (full context window)" ++ nl in
      let md :=
        if includeRules then
          md ++ nl ++ "## Rules" ++ nl ++ nl
          ++ pieces (map (fun rule => "- " ++ rule ++ nl) THINKING_CONFIG.rules)
        else md in
      let md :=
        if includeApiModes then
          md ++ nl ++ "## API Modes" ++ nl ++ nl
          ++ "| Mode | API Call | Beta Headers | Budget Rule |" ++ nl
          ++ "|------|----------|--------------|-------------|" ++ nl
          ++ pieces
               (map (fun mode =>
                       let headers :=
                         if Nat.ltb 0 (List.length (ApiMode.betaHeaders mode))
                         then join ", " (ApiMode.betaHeaders mode)
                         else "None" in
                       "| " ++ ApiMode.name mode
                       ++ " | `" ++ ApiMode.apiCall mode
                       ++ "` | " ++ headers
                       ++ " | " ++ ApiMode.thinkingBudgetRule mode ++ " |" ++ nl)
                    API_MODES)
        else md in
      let md := md ++ nl ++ "## Effort Levels (Opus 4.5 only)" ++ nl ++ nl in
      md ++ pieces
              (map (fun '(_, level) =>
                      "### " ++ EffortLevel.name level ++ nl
                      ++ "- **Token Usage:** " ++ EffortLevel.tokenUsage level ++ nl
                      ++ "- **Description:** " ++ EffortLevel.description level ++ nl ++ nl)
                   (Object_entries EFFORT_LEVELS))
  end.

(** *** Beta headers *)

Definition BetaHeader_toJSON (header : BetaHeader.t) : JSON :=
  JObject
    ([ ("name", JString (BetaHeader.name header));
       ("value", JString (BetaHeader.value header));
       ("purpose", JString (BetaHeader.purpose header));
       ("requiredFor", JString (BetaHeader.requiredFor header)) ]
     ++ match BetaHeader.models header with
        | Some ms => [ ("models", JArray (map JString ms)) ]
        | None => []
        end)%list.

Definition getBetaHeaders (format : Format) : string :=
  match format with
  | json => JSON_stringify_pretty (JArray (map BetaHeader_toJSON BETA_HEADERS))
  | markdown =>
      let md := "# Beta Headers" ++ nl ++ nl in
      let md := md ++ "| Name | Value | Purpose | Required For |" ++ nl in
      let md := md ++ "|------|-------|---------|---------------|" ++ nl in
      let md :=
        md ++ pieces
          (map (fun header =>
                  let models :=
                    match BetaHeader.models header with
                    | Some ms => " (" ++ join ", " ms ++ ")"
                    | None => EmptyString
                    end in
                  "| " ++ BetaHeader.name header
                  ++ " | `" ++ BetaHeader.value header
                  ++ "` | " ++ BetaHeader.purpose header
                  ++ " | " ++ BetaHeader.requiredFor header ++ models ++ " |" ++ nl)
               BETA_HEADERS) in
      let md := md ++ nl ++ "## Usage Examples" ++ nl ++ nl in
      let md := md ++ "```typescript" ++ nl in
      let md := md ++ "// Interleaved thinking with tools" ++ nl in
      let md := md ++ "const response = await anthropic.beta.messages.create({" ++ nl in
      let md := md ++ "  model: 'claude-sonnet-4-5-20250929'," ++ nl in
      let md := md ++ "  betas: ['interleaved-thinking-2025-05-14']," ++ nl in
      let md := md ++ "  thinking: { type: 'enabled', budget_tokens: 32000 }," ++ nl in
      let md := md ++ "  tools: [...]," ++ nl in
      let md := md ++ "  // ..." ++ nl in
      let md := md ++ "});" ++ nl ++ nl in
      let md := md ++ "// 1M context (Sonnet only)" ++ nl in
      let md := md ++ "const response = await anthropic.beta.messages.create({" ++ nl in
      let md := md ++ "  model: 'claude-sonnet-4-5-20250929'," ++ nl in
      let md := md ++ "  betas: ['context-1m-2025-08-07']," ++ nl in
      let md := md ++ "  // ..." ++ nl in
      let md := md ++ "});" ++ nl in
      let md := md ++ "```" ++ nl in
      md
  end.

(** *** Cost calculator: lookup and rendering *)

Definition CostCalculation_toJSON (result : CostCalculation.t) : JSON :=
  JObject
    [ ("model", JString (CostCalculation.model result));
      ("inputTokens", JNumber (CostCalculation.inputTokens result));
      ("outputTokens", JNumber (CostCalculation.outputTokens result));
      ("thinkingTokens", JNumber (CostCalculation.thinkingTokens result));
      ("totalOutputTokens", JNumber (CostCalculation.totalOutputTokens result));
      ("baseCost", JNumber (CostCalculation.baseCost result));
      ("cacheDiscount", JNumber (CostCalculation.cacheDiscount result));
      ("batchDiscount", JNumber (CostCalculation.batchDiscount result));
      ("longContextPremium", JNumber (CostCalculation.longContextPremium result));
      ("finalCost", JNumber (CostCalculation.finalCost result));
      ("breakdown",
       JObject
         [ ("inputCost", JNumber (CostCalculation.inputCost result));
           ("outputCost", JNumber (CostCalculation.outputCost result)) ]) ].

Definition renderCost (result : CostCalculation.t) (format : Format) : string :=
  match format with
  | json => JSON_stringify_pretty (CostCalculation_toJSON result)
  | markdown =>
      let md := "# Cost Calculation: " ++ CostCalculation.model result ++ nl ++ nl in
      let md := md ++ "## Tokens" ++ nl in
      let md := md ++ "- **Input:** "
                   ++ toLocaleString (CostCalculation.inputTokens result) ++ nl in
      let md := md ++ "- **Output:** "
                   ++ toLocaleString (CostCalculation.outputTokens result) ++ nl in
      let md := md ++ "- **Thinking:** "
                   ++ toLocaleString (CostCalculation.thinkingTokens result) ++ nl in
      let md := md ++ "- **Total Output (output + thinking):** "
                   ++ toLocaleString (CostCalculation.totalOutputTokens result) ++ nl ++ nl in
      let md := md ++ "## Cost Breakdown" ++ nl in
      let md := md ++ "- **Input Cost:** $"
                   ++ toFixed (CostCalculation.inputCost result) 6 ++ nl in
      let md := md ++ "- **Output Cost:** $"
                   ++ toFixed (CostCalculation.outputCost result) 6 ++ nl in
      let md :=
        if Num.gtb (CostCalculation.cacheDiscount result) Num.zero
        then md ++ "- **Cache Savings:** -$"
                ++ toFixed (CostCalculation.cacheDiscount result) 6 ++ nl
        else md in
      let md :=
        if Num.gtb (CostCalculation.batchDiscount result) Num.zero
        then md ++ "- **Batch Savings:** -$"
                ++ toFixed (CostCalculation.batchDiscount result) 6 ++ nl
        else md in
      let md :=
        if Num.gtb (CostCalculation.longContextPremium result) Num.zero
        then md ++ "- **Long Context Premium:** +$"
                ++ toFixed (CostCalculation.longContextPremium result) 6 ++ nl
        else md in
      md ++ nl ++ "## Final Cost: **$"
         ++ toFixed (CostCalculation.finalCost result) 6 ++ "**" ++ nl
  end.

(** The object [result] of a call, when the key names a catalogue model. *)
Definition costResult (modelKey : string)
    (inputTokens outputTokens thinkingTokens : number) (useCache : bool)
    (cacheHitRatio : number) (useBatch longContext : bool)
    : option CostCalculation.t :=
  match get CLAUDE_MODELS modelKey with
  | None => None
  | Some model =>
      Some (costCalculation model inputTokens outputTokens thinkingTokens
              useCache cacheHitRatio useBatch longContext)
  end.

Definition calculateCost (modelKey : string)
    (inputTokens outputTokens thinkingTokens : number) (useCache : bool)
    (cacheHitRatio : number) (useBatch longContext : bool)
    (format : Format) : string :=
  match costResult modelKey inputTokens outputTokens thinkingTokens
          useCache cacheHitRatio useBatch longContext with
  | None => "Error: Model '" ++ modelKey ++ "' not found."
  | Some result => renderCost result format
  end.

End Topics.

(* ------------------------------------------------------------------ *)
(** ** Relevance search *)

Module SearchResult.
Record t := mk {
  section : string;
  content : string;
  relevance : number
}.
End SearchResult.

(** [s.toLowerCase()] on ASCII text.  The case mapping of code points
    beyond ASCII is not modelled; the statements about every query hold for
    whatever string the lowering returns. *)
Definition toLowerCase_char (c : ascii) : ascii :=
  let n := nat_of_ascii c in
  if Nat.leb 65 n && Nat.leb n 90 then ascii_of_nat (n + 32) else c.

Fixpoint toLowerCase (s : string) : string :=
  match s with
  | EmptyString => EmptyString
  | String c s' => String (toLowerCase_char c) (toLowerCase s')
  end.

(** [s.includes(sub)] *)
Fixpoint includes (s sub : string) : bool :=
  if String.prefix sub s then true
  else
    match s with
    | EmptyString => false
    | String _ s' => includes s' sub
    end.

(** [xs.sort(compareFn)]: the sort is stable and places [x] after [y]
    exactly when [compareFn(x, y) > 0]; a comparator result that is not a
    positive number leaves the pair in its order. *)
Section ArraySort.
Variable A : Type.
Variable compareFn : A -> A -> number.

Fixpoint sort_insert (x : A) (sorted : list A) : list A :=
  match sorted with
  | [] => [x]
  | y :: rest =>
      if Num.gtb (compareFn x y) Num.zero
      then y :: sort_insert x rest
      else x :: y :: rest
  end.

Definition Array_sort (xs : list A) : list A :=
  fold_right sort_insert [] xs.
End ArraySort.

Arguments sort_insert {A} compareFn x sorted.
Arguments Array_sort {A} compareFn xs.

Section Search.
Context {rt : Runtime}.
Local Open Scope string_scope.

Definition modelMatches (lowerQuery : string) (model : ClaudeModel.t) : bool :=
  includes (toLowerCase (ClaudeModel.name model)) lowerQuery
  || includes (toLowerCase (ClaudeModel.apiId model)) lowerQuery
  || existsb (fun f => includes (toLowerCase f) lowerQuery) (ClaudeModel.features model).

(** The array [results] as the four groups have pushed to it, before it
    is sorted. *)
Definition searchMatches (lowerQuery : string) : list SearchResult.t :=
  let results : list SearchResult.t := [] in
  (* Search models *)
  let results :=
    (results ++
     flat_map
       (fun '(_, model) =>
          if modelMatches lowerQuery model then
            [ {| SearchResult.section := "Models";
                 SearchResult.content := formatModelMarkdown model;
                 SearchResult.relevance :=
                   if includes (toLowerCase (ClaudeModel.name model)) lowerQuery
                   then Num.of_Z 1 else Num.dec 7 1 |} ]
          else [])
       (Object_entries CLAUDE_MODELS))%list in
  (* Search thinking config *)
  let results :=
    if includes lowerQuery "think"
       || includes lowerQuery "budget"
       || includes lowerQuery "reasoning"
    then (results ++
          [ {| SearchResult.section := "Extended Thinking";
               SearchResult.content := getThinkingConfig true true markdown;
               SearchResult.relevance := Num.dec 9 1 |} ])%list
    else results in
  (* Search pricing *)
  let results :=
    if includes lowerQuery "price"
       || includes lowerQuery "cost"
       || includes lowerQuery "token"
       || includes lowerQuery "$"
    then (results ++
          [ {| SearchResult.section := "Pricing";
               SearchResult.content := getPricing "all" true markdown;
               SearchResult.relevance := Num.dec 9 1 |} ])%list
    else results in
  (* Search beta headers *)
  let results :=
    if includes lowerQuery "beta"
       || includes lowerQuery "header"
       || includes lowerQuery "interleaved"
       || includes lowerQuery "1m"
       || includes lowerQuery "context"
    then (results ++
          [ {| SearchResult.section := "Beta Headers";
               SearchResult.content := getBetaHeaders markdown;
               SearchResult.relevance := Num.dec 8 1 |} ])%list
    else results in
  results.

Definition byRelevance (a b : SearchResult.t) : number :=
  (SearchResult.relevance b - SearchResult.relevance a)%js.

(** [results] after [results.sort((a, b) => b.relevance - a.relevance)]. *)
Definition searchResults (query : string) : list SearchResult.t :=
  Array_sort byRelevance (searchMatches (toLowerCase query)).

Definition SearchResult_toJSON (result : SearchResult.t) : JSON :=
  JObject
    [ ("section", JString (SearchResult.section result));
      ("content", JString (SearchResult.content result));
      ("relevance", JNumber (SearchResult.relevance result)) ].

Definition noResultsJSON (query : string) : JSON :=
  JObject
    [ ("query", JString query);
      ("results", JArray []);
      ("message", JString "No results found") ].

Definition noResultsMarkdown (query : string) : string :=
  "No results found for: " ++ dquote ++ query ++ dquote ++ nl ++ nl
  ++ "Try searching for: models, pricing, tokens, thinking, beta headers".

Definition renderResult (result : SearchResult.t) : string :=
  "---" ++ nl ++ nl ++ "## " ++ SearchResult.section result ++ nl ++ nl
  ++ (SearchResult.content result ++ nl ++ nl).

Definition searchHeader (query : string) (results : list SearchResult.t) : string :=
  "# Search Results for: " ++ dquote ++ query ++ dquote ++ nl ++ nl
  ++ "Found " ++ Number_toString (Num.of_Z (Z.of_nat (List.length results)))
  ++ " result(s)" ++ nl ++ nl.

Definition searchDocs (query : string) (format : Format) : string :=
  let results := searchResults query in
  if Nat.eqb (List.length results) 0 then
    match format with
    | json => JSON_stringify (noResultsJSON query)
    | markdown => noResultsMarkdown query
    end
  else
    match format with
    | json =>
        JSON_stringify_pretty
          (JObject
             [ ("query", JString query);
               ("results", JArray (map SearchResult_toJSON results)) ])
    | markdown =>
        searchHeader query results
        ++ pieces (map renderResult (firstn 3 results))
    end.

End Search.

(* ------------------------------------------------------------------ *)
(** ** Usage profiles

    The request schema admits token counts that are non-negative integers
    and a cache hit ratio between 0 and 1.  Every such token count is a
    canonical finite double with a clear sign bit ([token_count]); the
    statements below hold for all of those, integer or not. *)

Definition posfin (y : number) : bool :=
  match y with
  | S754_finite false _ _ => true
  | _ => false
  end.

Definition token_count (x : number) : bool :=
  Num.valid x && Num.finite x && Num.nonneg x.

Definition hit_ratio (r : number) : bool :=
  Num.valid r && Num.nonneg r && Num.leb r Num.one.

(** [a === b] on numbers. *)
Definition strictEquals (a b : number) : bool := SFeqb a b.

(** A list of search results is ranked when every result is at least as
    relevant as all the results after it. *)
Definition atLeastAsRelevant (a b : SearchResult.t) : Prop :=
  Num.leb (SearchResult.relevance b) (SearchResult.relevance a) = true.

Definition withRelevance (v : number) (xs : list SearchResult.t) : list SearchResult.t :=
  filter (fun x => strictEquals (SearchResult.relevance x) v) xs.

(** The relevance scores the four groups assign, and their rank. *)
Definition relevanceScores : list number :=
  [ Num.of_Z 1; Num.dec 9 1; Num.dec 8 1; Num.dec 7 1 ].

Definition relevanceRank (v : number) : Z :=
  if strictEquals v (Num.of_Z 1) then 10
  else if strictEquals v (Num.dec 9 1) then 9
  else if strictEquals v (Num.dec 8 1) then 8
  else if strictEquals v (Num.dec 7 1) then 7
  else 0.

(** A runtime whose formatting functions return the empty string, used
    to run the service on examples. *)
Definition blankRuntime : Runtime :=
  {| toLocaleString := fun _ => EmptyString;
     toFixed := fun _ _ => EmptyString;
     Number_toString := fun _ => EmptyString;
     JSON_stringify := fun _ => EmptyString;
     JSON_stringify_pretty := fun _ => EmptyString |}.


(* ------------------------------------------------------------------ *)
(** ** Best practices *)

Definition BEST_PRACTICES : list (string * list string) :=
  [ ("thinkingBudget",
     [ "Start with 16K tokens and increase incrementally";
       "For budgets above 32K, use batch processing";
       "Monitor actual usage vs. budget to optimize costs";
       "Thinking tokens count as OUTPUT tokens for billing" ]);
    ("modelSelection",
     [ "Opus 4.5: Complex reasoning, coding, agents, highest quality";
       "Sonnet 4.5: Best balance of speed/cost/quality for most use cases";
       "Haiku 4.5: High-volume, latency-sensitive, cost-optimized tasks" ]);
    ("costOptimization",
     [ "Use prompt caching (90% savings on cache reads)";
       "Use batch API (50% discount on all tokens)";
       "Start with lower effort levels and escalate as needed";
       "Use Haiku for sub-agents and parallelized tasks" ]);
    ("contextManagement",
     [ "Enable context-management beta header for long sessions";
       "Previous thinking blocks are auto-stripped (saves context)";
       "Opus 4.5 preserves thinking blocks by default (better continuity)";
       "Monitor context usage in long conversations" ]) ]%string.

(** The local table [topicMap] of [getBestPractices]. *)
Definition topicMap : list (string * string) :=
  [ ("thinking", "thinkingBudget");
    ("model_selection", "modelSelection");
    ("cost_optimization", "costOptimization");
    ("context_management", "contextManagement") ]%string.

(** [\w]: an ASCII letter, digit or underscore. *)
Definition isWordChar (c : ascii) : bool :=
  let n := nat_of_ascii c in
  (Nat.leb 48 n && Nat.leb n 57)
  || (Nat.leb 65 n && Nat.leb n 90)
  || (Nat.leb 97 n && Nat.leb n 122)
  || Nat.eqb n 95.

Definition toUpperCase_char (c : ascii) : ascii :=
  let n := nat_of_ascii c in
  if Nat.leb 97 n && Nat.leb n 122 then ascii_of_nat (n - 32) else c.

(** [s.replace(/_/g, " ")] *)
Fixpoint replaceUnderscores (s : string) : string :=
  match s with
  | EmptyString => EmptyString
  | String c s' =>
      String (if Nat.eqb (nat_of_ascii c) 95 then ascii_of_nat 32 else c)
             (replaceUnderscores s')
  end.

(** [s.replace(/\b\w/g, c => c.toUpperCase())]: a word character that
    does not follow a word character is put in upper case. *)
Fixpoint capitalizeWords (afterWordChar : bool) (s : string) : string :=
  match s with
  | EmptyString => EmptyString
  | String c s' =>
      String (if isWordChar c && negb afterWordChar then toUpperCase_char c else c)
             (capitalizeWords (isWordChar c) s')
  end.

Section BestPractices.
Context {rt : Runtime}.
Local Open Scope string_scope.

Definition BEST_PRACTICES_toJSON : JSON :=
  JObject (map (fun '(key, practices) => (key, JArray (map JString practices)))
               BEST_PRACTICES).

(** [BEST_PRACTICES[key]] for the [key] read from [topicMap]; [undefined]
    when the topic has no entry there.  (A topic naming a member of
    [Object.prototype] reads a function or object from [topicMap], which is
    no key of [BEST_PRACTICES] either: the outcome is [undefined] too.) *)
Definition practicesOf (topic : string) : option (list string) :=
  match get topicMap topic with
  | Some key => get BEST_PRACTICES key
  | None => None
  end.

Definition practicesSection (name : string) (practices : list string) : string :=
  "## " ++ capitalizeWords false (replaceUnderscores name) ++ nl ++ nl
  ++ pieces (map (fun p => "- " ++ p ++ nl) practices)
  ++ nl.

(** [getBestPractices].  [None] stands for the [TypeError] raised by
    [practices.forEach] when [practices] is [undefined]. *)
Definition getBestPractices (topic : string) (format : Format) : option string :=
  match format with
  | json =>
      if String.eqb topic "all" then Some (JSON_stringify_pretty BEST_PRACTICES_toJSON)
      else
        Some (JSON_stringify_pretty
                (JObject
                   match practicesOf topic with
                   | Some practices => [ (topic, JArray (map JString practices)) ]
                   | None => []
                   end))
  | markdown =>
      let md := "# Best Practices" ++ nl ++ nl in
      let topics :=
        if String.eqb topic "all"
        then map fst (Object_entries topicMap)
        else [ topic ] in
      fold_left
        (fun (acc : option string) (name : string) =>
           match acc, practicesOf name with
           | Some md, Some practices => Some (md ++ practicesSection name practices)
           | _, _ => None
           end)
        topics (Some md)
  end.

End BestPractices.

(* ------------------------------------------------------------------ *)
(** ** Request schemas ([schemas/index.ts])

    The enumerations the schemas allow for the [model] and [topic]
    parameters; [z_enum values x] is the test that [x] passes
    [z.enum(values)]. *)

Definition z_enum (values : list string) (x : string) : bool :=
  existsb (String.eqb x) values.

Definition GetModelInfoSchema_model : list string :=
  [ "opus_4_5"; "sonnet_4_5"; "haiku_4_5"; "all" ]%string.

Definition GetPricingSchema_model : list string :=
  [ "opus_4_5"; "sonnet_4_5"; "haiku_4_5"; "all" ]%string.

Definition GetTokenLimitsSchema_model : list string :=
  [ "opus_4_5"; "sonnet_4_5"; "haiku_4_5"; "all" ]%string.

Definition CalculateCostSchema_model : list string :=
  [ "opus_4_5"; "sonnet_4_5"; "haiku_4_5" ]%string.

Definition GetBestPracticesSchema_topic : list string :=
  [ "thinking"; "model_selection"; "cost_optimization"; "context_management"; "all" ]%string.

(** [sub] occurs in [s]. *)
Definition substring_of (sub s : string) : Prop :=
  exists before after : string, s = (before ++ sub ++ after)%string.

(* ------------------------------------------------------------------ *)
(** ** Auxiliary notions for the statements *)

Section ModelResults.
Context {rt : Runtime}.

(** The results that the loop over the models pushes. *)
Definition modelResults (lowerQuery : string) : list SearchResult.t :=
  flat_map
    (fun '(_, model) =>
       if modelMatches lowerQuery model then
         [ {| SearchResult.section := "Models";
              SearchResult.content := formatModelMarkdown model;
              SearchResult.relevance :=
                if includes (toLowerCase (ClaudeModel.name model)) lowerQuery
                then Num.of_Z 1 else Num.dec 7 1 |} ]
       else [])
    (Object_entries CLAUDE_MODELS).

End ModelResults.

(** [below k x]: [x] is finite and its magnitude is below [2 ^ k]. *)
Definition below (k : Z) (x : number) : bool :=
  match x with
  | S754_zero _ => true
  | S754_finite _ m e => Z.leb (Zdigits2 (Zpos m) + e) k
  | _ => false
  end.

(** A token count up to [2 ^ 53], the range of exactly represented
    integers. *)
Definition safe_count (x : number) : bool :=
  token_count x && Num.leb x (Num.of_Z 9007199254740992).

(* ================================================================== *)
(** * Properties *)

Local Open Scope Z_scope.

(** ** Binary digits *)

Lemma digits2_pos_log2 (p : positive) :
  Zpos (digits2_pos p) = Z.log2 (Zpos p) + 1.
Proof.
  induction p as [p IH | p IH | ]; cbn [digits2_pos]; try reflexivity.
  - rewrite Pos2Z.inj_succ, IH.
    change (Zpos p~1) with (2 * Zpos p + 1).
    rewrite Z.log2_succ_double by lia. lia.
  - rewrite Pos2Z.inj_succ, IH.
    change (Zpos p~0) with (2 * Zpos p).
    rewrite Z.log2_double by lia. lia.
Qed.

Lemma Zdigits2_log2 (m : Z) : 0 < m -> Zdigits2 m = Z.log2 m + 1.
Proof.
  destruct m as [ | p | p ]; try lia. intros _. apply digits2_pos_log2.
Qed.

Lemma Zdigits2_nonneg (m : Z) : 0 <= Zdigits2 m.
Proof. destruct m; cbn; lia. Qed.

Lemma Zdigits2_bounds (m : Z) :
  0 < m -> 2 ^ (Zdigits2 m - 1) <= m < 2 ^ Zdigits2 m.
Proof.
  intros Hm. rewrite Zdigits2_log2 by assumption.
  replace (Z.log2 m + 1 - 1) with (Z.log2 m) by lia.
  replace (Z.log2 m + 1) with (Z.succ (Z.log2 m)) by lia.
  apply Z.log2_spec. assumption.
Qed.

Lemma Zdigits2_le_of_lt_pow2 (m k : Z) :
  0 <= m -> 0 <= k -> m < 2 ^ k -> Zdigits2 m <= k.
Proof.
  intros Hm Hk Hlt.
  destruct (Z.eq_dec m 0) as [-> | Hne]; [cbn; lia | ].
  rewrite Zdigits2_log2 by lia.
  assert (Z.log2 m < k) by (apply Z.log2_lt_pow2; lia). lia.
Qed.

Lemma Zdigits2_mono (a b : Z) : 0 <= a <= b -> Zdigits2 a <= Zdigits2 b.
Proof.
  intros [Ha Hab].
  destruct (Z.eq_dec a 0) as [-> | Hne]; [apply Zdigits2_nonneg | ].
  rewrite !Zdigits2_log2 by lia.
  assert (Z.log2 a <= Z.log2 b) by (apply Z.log2_le_mono; lia). lia.
Qed.

(** ** Shifting right *)

Lemma shr_1_m (mrs : shr_record) :
  0 <= shr_m mrs -> shr_m (shr_1 mrs) = shr_m mrs / 2.
Proof.
  destruct mrs as [m r s]. cbn [shr_m shr_1]. intros Hm.
  destruct m as [ | [p | p | ] | p ]; cbn [shr_m]; try lia.
  - reflexivity.
  - change (Zpos p~1) with (2 * Zpos p + 1).
    apply Z.div_unique with (r := 1); lia.
  - change (Zpos p~0) with (2 * Zpos p).
    apply Z.div_unique with (r := 0); lia.
  - reflexivity.
Qed.

Lemma iter_pos_shr_m (p : positive) :
  forall mrs, 0 <= shr_m mrs ->
    shr_m (iter_pos shr_1 p mrs) = shr_m mrs / 2 ^ Zpos p.
Proof.
  induction p as [p IH | p IH | ]; intros mrs Hm; cbn [iter_pos].
  - assert (H1 : 0 <= shr_m (shr_1 mrs)).
    { rewrite shr_1_m by assumption. apply Z.div_pos; lia. }
    assert (H2 : 0 <= shr_m (iter_pos shr_1 p (shr_1 mrs))).
    { rewrite IH by assumption. apply Z.div_pos; [assumption | ].
      apply Z.pow_pos_nonneg; lia. }
    rewrite IH by assumption. rewrite IH by assumption.
    rewrite shr_1_m by assumption.
    rewrite !Z.div_div by (try apply Z.pow_pos_nonneg; lia).
    f_equal. change (Zpos p~1) with (2 * Zpos p + 1).
    rewrite Z.pow_add_r, Z.pow_1_r by lia.
    replace (2 * Zpos p) with (Zpos p + Zpos p) by lia.
    rewrite Z.pow_add_r by lia. ring.
  - assert (H2 : 0 <= shr_m (iter_pos shr_1 p mrs)).
    { rewrite IH by assumption. apply Z.div_pos; [assumption | ].
      apply Z.pow_pos_nonneg; lia. }
    rewrite IH by assumption. rewrite IH by assumption.
    rewrite !Z.div_div by (try apply Z.pow_pos_nonneg; lia).
    f_equal. change (Zpos p~0) with (2 * Zpos p).
    replace (2 * Zpos p) with (Zpos p + Zpos p) by lia.
    rewrite Z.pow_add_r by lia. ring.
  - rewrite shr_1_m by assumption. reflexivity.
Qed.

Lemma shr_record_of_loc_m (m : Z) (l : location) :
  shr_m (shr_record_of_loc m l) = m.
Proof. destruct l as [ | [ | | ] ]; reflexivity. Qed.

Lemma fexp64_eq (z : Z) : fexp Num.prec Num.emax z = Z.max (z - 53) (-1074).
Proof. reflexivity. Qed.

(** [shr_fexp] divides the mantissa by [2 ^ n] and adds [n] to the
    exponent, for the shift [n] that brings the exponent to [fexp]. *)
Lemma shr_fexp_spec (m e : Z) (l : location) :
  0 <= m ->
  let n := Z.max 0 (fexp Num.prec Num.emax (Zdigits2 m + e) - e) in
  shr_m (fst (shr_fexp Num.prec Num.emax m e l)) = m / 2 ^ n
  /\ snd (shr_fexp Num.prec Num.emax m e l) = e + n.
Proof.
  intros Hm n. unfold shr_fexp, shr. subst n.
  destruct (fexp Num.prec Num.emax (Zdigits2 m + e) - e) as [ | p | p ] eqn:E;
    cbn [fst snd].
  - rewrite shr_record_of_loc_m. change (Z.max 0 0) with 0.
    rewrite Z.pow_0_r, Z.div_1_r. split; lia.
  - rewrite iter_pos_shr_m by (rewrite shr_record_of_loc_m; assumption).
    rewrite shr_record_of_loc_m.
    replace (Z.max 0 (Zpos p)) with (Zpos p) by lia. split; reflexivity.
  - rewrite shr_record_of_loc_m.
    replace (Z.max 0 (Zneg p)) with 0 by lia.
    rewrite Z.pow_0_r, Z.div_1_r. split; lia.
Qed.

Lemma round_nearest_even_cases (m : Z) (l : location) :
  round_nearest_even m l = m \/ round_nearest_even m l = m + 1.
Proof.
  destruct l as [ | [ | | ] ]; cbn; auto. destruct (Z.even m); auto.
Qed.

(** The shape of a rounded result: from a non-negative mantissa the
    rounding yields a zero, a finite number or an infinity of the sign it
    was given, after two shifts and at most one increment. *)
Lemma binary_round_aux_spec (s : bool) (m e : Z) (l : location) :
  0 <= m ->
  exists m1 r m2 e1 e2 : Z,
    let n1 := Z.max 0 (fexp Num.prec Num.emax (Zdigits2 m + e) - e) in
    let n2 := Z.max 0 (fexp Num.prec Num.emax (Zdigits2 r + e1) - e1) in
    m1 = m / 2 ^ n1 /\ e1 = e + n1 /\ (r = m1 \/ r = m1 + 1) /\
    m2 = r / 2 ^ n2 /\ e2 = e1 + n2 /\ 0 <= m1 /\ 0 <= r /\ 0 <= m2 /\
    binary_round_aux Num.prec Num.emax s m e l =
      match m2 with
      | Z0 => S754_zero s
      | Zpos p => if Z.leb e2 971 then S754_finite s p e2 else S754_infinity s
      | Zneg _ => S754_nan
      end.
Proof.
  intros Hm. unfold binary_round_aux.
  destruct (shr_fexp_spec m e l Hm) as [Hm1 He1].
  destruct (shr_fexp Num.prec Num.emax m e l) as [mrs1 e1] eqn:E1.
  cbn [fst snd] in Hm1, He1.
  set (r := round_nearest_even (shr_m mrs1) (loc_of_shr_record mrs1)).
  assert (Hm1pos : 0 <= shr_m mrs1).
  { rewrite Hm1. apply Z.div_pos; [assumption | apply Z.pow_pos_nonneg; lia]. }
  assert (Hr : r = shr_m mrs1 \/ r = shr_m mrs1 + 1) by apply round_nearest_even_cases.
  assert (Hrpos : 0 <= r) by lia.
  destruct (shr_fexp_spec r e1 loc_Exact Hrpos) as [Hm2 He2].
  destruct (shr_fexp Num.prec Num.emax r e1 loc_Exact) as [mrs2 e2] eqn:E2.
  cbn [fst snd] in Hm2, He2.
  exists (shr_m mrs1), r, (shr_m mrs2), e1, e2.
  cbv zeta. repeat split; try assumption.
  rewrite Hm2. apply Z.div_pos; [assumption | apply Z.pow_pos_nonneg; lia].
Qed.


Lemma Zdigits2_div_pow2 (m n : Z) :
  0 <= m -> 0 <= n -> Zdigits2 (m / 2 ^ n) <= Z.max 0 (Zdigits2 m - n).
Proof.
  intros Hm Hn.
  destruct (Z.eq_dec m 0) as [-> | Hne].
  { rewrite Z.div_0_l by (apply Z.pow_nonzero; lia). cbn. lia. }
  assert (Hb := Zdigits2_bounds m ltac:(lia)).
  assert (Hd := Zdigits2_nonneg m).
  assert (Hp : 0 < 2 ^ n) by (apply Z.pow_pos_nonneg; lia).
  destruct (Z_le_gt_dec (Zdigits2 m) n) as [Hle | Hgt].
  - assert (2 ^ Zdigits2 m <= 2 ^ n) by (apply Z.pow_le_mono_r; lia).
    rewrite Z.div_small by lia. cbn. lia.
  - apply Z.le_trans with (Zdigits2 m - n); [ | lia].
    apply Zdigits2_le_of_lt_pow2; try lia.
    + apply Z.div_pos; lia.
    + apply Z.div_lt_upper_bound; [lia | ].
      rewrite <- Z.pow_add_r by lia.
      replace (n + (Zdigits2 m - n)) with (Zdigits2 m) by lia. lia.
Qed.

Lemma Zdigits2_succ (m : Z) : 0 <= m -> Zdigits2 (m + 1) <= Zdigits2 m + 1.
Proof.
  intros Hm.
  destruct (Z.eq_dec m 0) as [-> | Hne]; [cbn; lia | ].
  assert (Hb := Zdigits2_bounds m ltac:(lia)).
  assert (Hd := Zdigits2_nonneg m).
  apply Zdigits2_le_of_lt_pow2; try lia.
  rewrite Z.pow_add_r, Z.pow_1_r by lia. lia.
Qed.

Lemma div_pow2_pos (m n : Z) :
  0 < m -> 0 <= n <= Zdigits2 m - 1 -> 0 < m / 2 ^ n.
Proof.
  intros Hm Hn.
  assert (Hb := Zdigits2_bounds m Hm).
  assert (2 ^ n <= 2 ^ (Zdigits2 m - 1)) by (apply Z.pow_le_mono_r; lia).
  apply Z.div_str_pos. split; [apply Z.pow_pos_nonneg; lia | lia].
Qed.

(** *** Three consequences of the shape of a rounded result *)

(** Rounding a non-negative mantissa with a clear sign bit never yields a
    negative number or NaN. *)
Lemma binary_round_aux_nonneg (m e : Z) (l : location) :
  0 <= m -> Num.nonneg (binary_round_aux Num.prec Num.emax false m e l) = true.
Proof.
  intros Hm.
  destruct (binary_round_aux_spec false m e l Hm)
    as (m1 & r & m2 & e1 & e2 & _ & _ & _ & _ & _ & _ & _ & Hm2 & ->).
  destruct m2 as [ | p | p ]; [reflexivity | | lia].
  destruct (Z.leb e2 971); reflexivity.
Qed.

(** Rounding a positive mantissa whose exponent is not below the least
    exponent never underflows to zero, and never lowers the exponent. *)
Lemma binary_round_aux_pos (s : bool) (m e : Z) (l : location) :
  0 < m -> -1074 <= e ->
  (exists p e2, binary_round_aux Num.prec Num.emax s m e l = S754_finite s p e2
                /\ e <= e2)
  \/ binary_round_aux Num.prec Num.emax s m e l = S754_infinity s.
Proof.
  intros Hm He.
  destruct (binary_round_aux_spec s m e l ltac:(lia))
    as (m1 & r & m2 & e1 & e2 & Hm1 & He1 & Hr & Hm2 & He2 & _ & _ & _ & ->).
  cbv zeta in *. rewrite fexp64_eq in *.
  assert (Hd := Zdigits2_bounds m Hm).
  assert (H1 : 0 < m1).
  { rewrite Hm1. apply div_pow2_pos; [assumption | ].
    assert (0 < Zdigits2 m) by (destruct m; cbn in *; lia). lia. }
  assert (Hrpos : 0 < r) by lia.
  assert (H2 : 0 < m2).
  { rewrite Hm2. apply div_pow2_pos; [assumption | ].
    assert (0 < Zdigits2 r) by (destruct r; cbn in *; lia). lia. }
  destruct m2 as [ | p | p ]; try lia.
  destruct (Z.leb e2 971); [left | right; reflexivity].
  exists p, e2. split; [reflexivity | lia].
Qed.

(** Rounding cannot overflow when the magnitude is below [2 ^ 1023]. *)
Lemma binary_round_aux_finite (s : bool) (m e : Z) (l : location) :
  0 <= m -> e <= 971 -> Zdigits2 m + e <= 1023 ->
  Num.finite (binary_round_aux Num.prec Num.emax s m e l) = true.
Proof.
  intros Hm He Hd.
  destruct (binary_round_aux_spec s m e l Hm)
    as (m1 & r & m2 & e1 & e2 & Hm1 & He1 & Hr & Hm2 & He2 & Hm1pos & Hrpos & Hm2pos & ->).
  cbv zeta in *. rewrite fexp64_eq in *.
  assert (D1 : Zdigits2 m1 <= Z.max 0 (Zdigits2 m - Z.max 0 (Z.max (Zdigits2 m + e - 53) (-1074) - e))).
  { rewrite Hm1. apply Zdigits2_div_pow2; lia. }
  assert (Dr : Zdigits2 r <= Zdigits2 m1 + 1).
  { destruct Hr as [-> | ->]; [lia | apply Zdigits2_succ; assumption]. }
  destruct m2 as [ | p | p ]; [reflexivity | | lia].
  replace (Z.leb e2 971) with true; [reflexivity | ].
  symmetry. apply Z.leb_le. lia.
Qed.

(** *** Alignment and [binary_round] *)

Lemma Zpos_iter_xO (m d : positive) :
  Zpos (Pos.iter xO m d) = Zpos m * 2 ^ Zpos d.
Proof.
  rewrite Pos.iter_swap_gen with (f := Zpos) (g := xO) (h := Z.mul 2)
    by reflexivity.
  change (Pos.iter (Z.mul 2) (Zpos m) d) with (Z.shiftl (Zpos m) (Zpos d)).
  apply Z.shiftl_mul_pow2. lia.
Qed.

Lemma shl_align_spec (mx : positive) (ex ez : Z) :
  snd (shl_align mx ex ez) = Z.min ex ez
  /\ Zpos (fst (shl_align mx ex ez)) = Zpos mx * 2 ^ (ex - Z.min ex ez).
Proof.
  unfold shl_align.
  destruct (ez - ex) as [ | d | d ] eqn:E; cbn [fst snd].
  - replace (Z.min ex ez) with ex by lia.
    rewrite Z.sub_diag, Z.pow_0_r. lia.
  - replace (Z.min ex ez) with ex by lia.
    rewrite Z.sub_diag, Z.pow_0_r. lia.
  - replace (Z.min ex ez) with ez by lia.
    rewrite Zpos_iter_xO. split; [reflexivity | ].
    f_equal. f_equal. lia.
Qed.

Lemma Zdigits2_mul_pow2 (m k : Z) :
  0 < m -> 0 <= k -> Zdigits2 (m * 2 ^ k) = Zdigits2 m + k.
Proof.
  intros Hm Hk.
  assert (0 < 2 ^ k) by (apply Z.pow_pos_nonneg; lia).
  rewrite !Zdigits2_log2 by nia.
  rewrite Z.log2_mul_pow2 by lia. lia.
Qed.

Lemma binary_round_nonneg (m : positive) (e : Z) :
  Num.nonneg (binary_round Num.prec Num.emax false m e) = true.
Proof.
  unfold binary_round.
  destruct (shl_align m e _) as [mz ez].
  apply binary_round_aux_nonneg. lia.
Qed.

Lemma binary_round_finite (s : bool) (m : positive) (e : Z) :
  e <= 971 -> Zdigits2 (Zpos m) + e <= 1023 ->
  Num.finite (binary_round Num.prec Num.emax s m e) = true.
Proof.
  intros He Hd. unfold binary_round.
  destruct (shl_align_spec m e (fexp Num.prec Num.emax (Zpos (digits2_pos m) + e)))
    as [Hsnd Hfst].
  destruct (shl_align m e _) as [mz ez]. cbn [fst snd] in Hsnd, Hfst.
  apply binary_round_aux_finite; [lia | lia | ].
  rewrite Hfst, Zdigits2_mul_pow2 by lia. lia.
Qed.


(** ** Arithmetic on non-negative numbers *)

Lemma add_zero_r (x : number) :
  x <> S754_zero true -> Num.add x Num.zero = x.
Proof.
  destruct x as [ [ | ] | [ | ] | | s m e ]; intros H; try reflexivity.
  congruence.
Qed.

Lemma nonneg_not_negzero (x : number) :
  Num.nonneg x = true -> x <> S754_zero true.
Proof. intros H ->. discriminate. Qed.

Lemma nonneg_leb_zero (x : number) :
  Num.nonneg x = true -> Num.leb Num.zero x = true.
Proof.
  destruct x as [ [ | ] | [ | ] | | [ | ] m e ]; intros H; try discriminate; reflexivity.
Qed.

Lemma add_nonneg (x y : number) :
  Num.nonneg x = true -> Num.nonneg y = true -> Num.nonneg (Num.add x y) = true.
Proof.
  destruct x as [ [ | ] | [ | ] | | [ | ] mx ex ]; try discriminate;
  destruct y as [ [ | ] | [ | ] | | [ | ] my ey ]; try discriminate;
  intros _ _; try reflexivity.
  unfold Num.add, SFadd, cond_Zopp.
  rewrite <- Pos2Z.inj_add. unfold binary_normalize.
  apply binary_round_nonneg.
Qed.

Lemma mul_nonneg_finite (x y : number) :
  Num.nonneg x = true -> Num.nonneg y = true ->
  Num.finite x = true -> Num.finite y = true ->
  Num.nonneg (Num.mul x y) = true.
Proof.
  destruct x as [ [ | ] | [ | ] | | [ | ] mx ex ]; try discriminate;
  destruct y as [ [ | ] | [ | ] | | [ | ] my ey ]; try discriminate;
  intros _ _ _ _; try reflexivity.
  unfold Num.mul, SFmul, xorb. apply binary_round_aux_nonneg. lia.
Qed.

Lemma mul_nonneg_posfin (x y : number) :
  Num.nonneg x = true -> posfin y = true -> Num.nonneg (Num.mul x y) = true.
Proof.
  destruct x as [ [ | ] | [ | ] | | [ | ] mx ex ]; try discriminate;
  destruct y as [ [ | ] | [ | ] | | [ | ] my ey ]; try discriminate;
  intros _ _; try reflexivity.
  unfold Num.mul, SFmul, xorb. apply binary_round_aux_nonneg. lia.
Qed.

Lemma SFdiv_core_binary_quotient (mx my : positive) (ex ey : Z) :
  0 <= fst (fst (SFdiv_core_binary Num.prec Num.emax (Zpos mx) ex (Zpos my) ey)).
Proof.
  unfold SFdiv_core_binary.
  set (e' := Z.min _ _). set (s := ex - ey - e').
  set (m' := match s with Z0 => Zpos mx | Zpos _ => Z.shiftl (Zpos mx) s | Zneg _ => 0 end).
  assert (Hm' : 0 <= m').
  { subst m'. destruct s; try lia. apply Z.shiftl_nonneg. lia. }
  assert (H := Z_div_mod m' (Zpos my) ltac:(lia)).
  destruct (Z.div_eucl m' (Zpos my)) as [q r]. cbn [fst].
  destruct H as [H1 H2]. nia.
Qed.

Lemma div_nonneg_posfin (x y : number) :
  Num.nonneg x = true -> posfin y = true -> Num.nonneg (Num.div x y) = true.
Proof.
  destruct x as [ [ | ] | [ | ] | | [ | ] mx ex ]; try discriminate;
  destruct y as [ [ | ] | [ | ] | | [ | ] my ey ]; try discriminate;
  intros _ _; try reflexivity.
  unfold Num.div, SFdiv, xorb.
  assert (H := SFdiv_core_binary_quotient mx my ex ey).
  destruct (SFdiv_core_binary _ _ _ _ _ _) as [[q e'] l]. cbn [fst] in H.
  apply binary_round_aux_nonneg. assumption.
Qed.

(** A canonical mantissa has at most 53 digits. *)
Lemma valid_finite_bounds (s : bool) (m : positive) (e : Z) :
  Num.valid (S754_finite s m e) = true ->
  Zdigits2 (Zpos m) <= 53 /\ -1074 <= e <= 971
  /\ (-1074 < e -> Zdigits2 (Zpos m) = 53).
Proof.
  unfold Num.valid, valid_binary, bounded, canonical_mantissa.
  rewrite fexp64_eq. intros H.
  apply andb_prop in H. destruct H as [H1 H2].
  apply Z.eqb_eq in H1. apply Z.leb_le in H2.
  change (Num.emax - Num.prec) with 971 in H2.
  cbn [Zdigits2]. lia.
Qed.

Lemma one_eq : Num.one = S754_finite false 4503599627370496 (-52).
Proof. reflexivity. Qed.


Lemma leb_one_cases (mr : positive) (er : Z) :
  Num.leb (S754_finite false mr er) (S754_finite false 4503599627370496 (-52)) = true ->
  er < -52 \/ (er = -52 /\ Zpos mr <= 4503599627370496).
Proof.
  intros Hle.
  unfold Num.leb, SFleb, SFcompare in Hle.
  destruct (Z.compare_spec er (-52)) as [E | E | E]; [right | left; lia | discriminate].
  split; [assumption | ].
  rewrite Pos.compare_cont_spec in Hle. cbn [Pos.switch_Eq] in Hle.
  rewrite Pos2Z.inj_compare in Hle.
  destruct (Z.compare_spec (Zpos mr) 4503599627370496) as [E' | E' | E'].
  - rewrite E'. apply Z.le_refl.
  - apply Z.lt_le_incl. exact E'.
  - discriminate.
Qed.

Lemma one_sub_ratio (r : number) :
  Num.valid r = true -> Num.nonneg r = true -> Num.leb r Num.one = true ->
  Num.nonneg (Num.sub Num.one r) = true /\ Num.finite (Num.sub Num.one r) = true.
Proof.
  intros Hv Hn Hle. rewrite one_eq in *.
  destruct r as [ [ | ] | [ | ] | | [ | ] mr er ]; try discriminate.
  - split; reflexivity.
  - destruct (valid_finite_bounds _ _ _ Hv) as (Hd & He & _).
    assert (Hb := Zdigits2_bounds (Zpos mr) ltac:(lia)).
    assert (Hmr : Zpos mr < 2 ^ 53).
    { apply Z.lt_le_trans with (2 ^ Zdigits2 (Zpos mr)); [lia | ].
      apply Z.pow_le_mono_r; lia. }
    assert (Hcmp := leb_one_cases mr er Hle).
    unfold Num.sub, SFsub, cond_Zopp.
    replace (Z.min (-52) er) with er by lia.
    destruct (shl_align_spec 4503599627370496 (-52) er) as [_ H1].
    destruct (shl_align_spec mr er er) as [_ H2].
    replace (Z.min (-52) er) with er in H1 by lia.
    replace (Z.min er er) with er in H2 by lia.
    rewrite Z.sub_diag, Z.pow_0_r, Z.mul_1_r in H2.
    rewrite H1, H2.
    change (Zpos 4503599627370496) with (2 ^ 52).
    rewrite <- Z.pow_add_r by lia.
    replace (52 + (-52 - er)) with (- er) by lia.
    assert (Hpow : Zpos mr <= 2 ^ (- er)).
    { destruct Hcmp as [E | [E E']].
      - assert (2 ^ 53 <= 2 ^ (- er)) by (apply Z.pow_le_mono_r; lia). lia.
      - subst er. exact E'. }
    destruct (2 ^ (- er) - Zpos mr) as [ | d | d ] eqn:ED; try lia.
    + split; reflexivity.
    + unfold binary_normalize. split; [apply binary_round_nonneg | ].
      apply binary_round_finite; [lia | ].
      assert (Zdigits2 (Zpos d) <= - er); [ | lia].
      apply Zdigits2_le_of_lt_pow2; lia.
Qed.


Lemma million_eq : Num.of_Z 1000000 = S754_finite false 8589934592000000 (-33).
Proof. reflexivity. Qed.

Lemma shift_left_cases (m s : Z) :
  0 <= s ->
  match s with
  | Z0 => m
  | Zpos _ => Z.shiftl m s
  | Zneg _ => 0
  end = m * 2 ^ s.
Proof.
  intros Hs. destruct s as [ | p | p ].
  - rewrite Z.pow_0_r. lia.
  - apply Z.shiftl_mul_pow2. lia.
  - lia.
Qed.

Lemma SFdiv_core_binary_spec (mx my : positive) (ex ey : Z) :
  let e' := Z.min (fexp Num.prec Num.emax
                     (Zdigits2 (Zpos mx) + ex - (Zdigits2 (Zpos my) + ey)))
                  (ex - ey) in
  fst (fst (SFdiv_core_binary Num.prec Num.emax (Zpos mx) ex (Zpos my) ey))
  = Zpos mx * 2 ^ (ex - ey - e') / Zpos my
  /\ snd (fst (SFdiv_core_binary Num.prec Num.emax (Zpos mx) ex (Zpos my) ey)) = e'.
Proof.
  intros e'. unfold SFdiv_core_binary. fold e'.
  rewrite shift_left_cases by (subst e'; lia).
  unfold Z.div.
  destruct (Z.div_eucl (Zpos mx * 2 ^ (ex - ey - e')) (Zpos my)) as [q r].
  split; reflexivity.
Qed.

(** Dividing a finite number by one (Num.of_Z 1000000) cannot overflow. *)
Lemma div_million_finite (x : number) :
  Num.valid x = true -> Num.finite x = true ->
  Num.finite (Num.div x (Num.of_Z 1000000)) = true.
Proof.
  intros Hv Hf. rewrite million_eq.
  destruct x as [ sx | sx | | sx mx ex ]; try discriminate; [reflexivity | ].
  destruct (valid_finite_bounds _ _ _ Hv) as (Hd & He & _).
  unfold Num.div, SFdiv.
  assert (Hspec := SFdiv_core_binary_spec mx 8589934592000000 ex (-33)).
  destruct (SFdiv_core_binary _ _ _ _ _ _) as [[q e'] l].
  cbv zeta in Hspec. cbn [fst snd] in Hspec.
  change (Zdigits2 (Zpos 8589934592000000)) with 53 in Hspec.
  rewrite fexp64_eq in Hspec.
  destruct Hspec as [Hq He'].
  remember (ex - -33 - Z.min (Z.max (Zdigits2 (Zpos mx) + ex - (53 + -33) - 53) (-1074)) (ex - -33))
    as k eqn:Hk.
  assert (Hs : 0 <= k) by lia.
  assert (Hp : 0 < 2 ^ k) by (apply Z.pow_pos_nonneg; lia).
  assert (Hn : 0 <= Zpos mx * 2 ^ k) by (apply Z.mul_nonneg_nonneg; lia).
  assert (Hq0 : 0 <= q).
  { rewrite Hq. apply Z.div_pos; [assumption | reflexivity]. }
  assert (Hqd : Zdigits2 q <= Z.max 0 (Zdigits2 (Zpos mx) + k - 52)).
  { apply Z.le_trans with (Zdigits2 (Zpos mx * 2 ^ k / 2 ^ 52)).
    - apply Zdigits2_mono. split; [assumption | ].
      rewrite Hq. apply Z.div_le_compat_l; [assumption | ].
      split; [reflexivity | ].
      change (2 ^ 52) with 4503599627370496. apply Pos2Z.pos_le_pos.
      apply Pos.leb_le. reflexivity.
    - eapply Z.le_trans; [apply Zdigits2_div_pow2; lia | ].
      rewrite Zdigits2_mul_pow2 by lia. lia. }
  apply binary_round_aux_finite; [assumption | lia | lia].
Qed.

Lemma one_leb_cases (mx : positive) (ex : Z) :
  Num.leb Num.one (S754_finite false mx ex) = true -> -52 <= ex.
Proof.
  rewrite one_eq. unfold Num.leb, SFleb, SFcompare.
  destruct (Z.compare_spec (-52) ex) as [E | E | E]; intros H;
    [lia | lia | discriminate].
Qed.

(** Dividing a number that is at least one by one (Num.of_Z 1000000) does not
    underflow: the quotient is a positive number. *)
Lemma div_million_pos (mx : positive) (ex : Z) :
  Num.valid (S754_finite false mx ex) = true ->
  Num.leb Num.one (S754_finite false mx ex) = true ->
  (exists p e, Num.div (S754_finite false mx ex) (Num.of_Z 1000000) = S754_finite false p e
               /\ -72 <= e)
  \/ Num.div (S754_finite false mx ex) (Num.of_Z 1000000) = S754_infinity false.
Proof.
  intros Hv Hle. rewrite million_eq.
  destruct (valid_finite_bounds _ _ _ Hv) as (Hd & He & Hn).
  assert (Hex := one_leb_cases _ _ Hle).
  assert (Hd53 : Zdigits2 (Zpos mx) = 53) by (apply Hn; lia).
  assert (Hb := Zdigits2_bounds (Zpos mx) ltac:(lia)).
  rewrite Hd53 in Hb. replace (53 - 1) with 52 in Hb by lia.
  unfold Num.div, SFdiv.
  assert (Hspec := SFdiv_core_binary_spec mx 8589934592000000 ex (-33)).
  destruct (SFdiv_core_binary _ _ _ _ _ _) as [[q e'] l].
  cbv zeta in Hspec. cbn [fst snd] in Hspec.
  change (Zdigits2 (Zpos 8589934592000000)) with 53 in Hspec.
  rewrite fexp64_eq, Hd53 in Hspec.
  replace (Z.min (Z.max (53 + ex - (53 + -33) - 53) (-1074)) (ex - -33))
    with (ex - 20) in Hspec by lia.
  replace (ex - -33 - (ex - 20)) with 53 in Hspec by lia.
  destruct Hspec as [Hq He'].
  assert (Hq0 : 0 < q).
  { rewrite Hq. apply Z.div_str_pos. split; [lia | ].
    apply Z.le_trans with (2 ^ 52 * 2 ^ 53).
    - change (2 ^ 52 * 2 ^ 53) with 40564819207303340847894502572032.
      apply Pos2Z.pos_le_pos. apply Pos.leb_le. reflexivity.
    - apply Z.mul_le_mono_nonneg_r; lia. }
  change (xorb false false) with false.
  destruct (binary_round_aux_pos false q e' l Hq0 ltac:(lia)) as [(p & e2 & -> & H2) | ->].
  - left. exists p, e2. split; [reflexivity | lia].
  - right. reflexivity.
Qed.

(** The product of two positive finite numbers is positive when the sum
    of their exponents is not below the least exponent. *)
Lemma mul_posfin_gt_zero (mx my : positive) (ex ey : Z) :
  -1074 <= ex + ey ->
  Num.gtb (Num.mul (S754_finite false mx ex) (S754_finite false my ey)) Num.zero = true.
Proof.
  intros He. unfold Num.mul, SFmul. change (xorb false false) with false.
  destruct (binary_round_aux_pos false (Zpos (mx * my)) (ex + ey) loc_Exact
              ltac:(lia) He) as [(p & e2 & -> & _) | ->]; reflexivity.
Qed.

(** ** The catalogue *)

Lemma known_model (key : string) (model : ClaudeModel.t) :
  get CLAUDE_MODELS key = Some model ->
  (key = "opus_4_5"%string /\ model = opus_4_5)
  \/ (key = "sonnet_4_5"%string /\ model = sonnet_4_5)
  \/ (key = "haiku_4_5"%string /\ model = haiku_4_5).
Proof.
  unfold CLAUDE_MODELS. cbn [get].
  destruct (String.eqb_spec "opus_4_5" key) as [<- | _].
  { intros [= <-]. auto. }
  destruct (String.eqb_spec "sonnet_4_5" key) as [<- | _].
  { intros [= <-]. auto. }
  destruct (String.eqb_spec "haiku_4_5" key) as [<- | _].
  { intros [= <-]. auto. }
  discriminate.
Qed.

Lemma selected_prices_posfin (key : string) (model : ClaudeModel.t) (longContext : bool) :
  get CLAUDE_MODELS key = Some model ->
  posfin (selectedInputPrice model longContext) = true
  /\ posfin (selectedOutputPrice model longContext) = true.
Proof.
  intros H.
  destruct (known_model key model H) as [[_ ->] | [[_ ->] | [_ ->]]];
    destruct longContext; split; vm_compute; reflexivity.
Qed.

Lemma multipliers_posfin :
  posfin PRICING_MULTIPLIERS.cacheRead = true
  /\ posfin PRICING_MULTIPLIERS.cacheWrite5min = true
  /\ posfin (Num.dec 5 1) = true
  /\ posfin (Num.of_Z 1000000) = true.
Proof. repeat split; vm_compute; reflexivity. Qed.

(** ** The fields of the cost result *)

Section CostFields.
Variable model : ClaudeModel.t.
Variables inputTokens outputTokens thinkingTokens : number.
Variable useCache : bool.
Variable cacheHitRatio : number.
Variables useBatch longContext : bool.

Let result :=
  costCalculation model inputTokens outputTokens thinkingTokens
    useCache cacheHitRatio useBatch longContext.
Let inputPrice := selectedInputPrice model longContext.
Let outputPrice := selectedOutputPrice model longContext.

Lemma totalOutputTokens_eq :
  CostCalculation.totalOutputTokens result = (outputTokens + thinkingTokens)%js.
Proof. subst result. unfold costCalculation. destruct useCache, useBatch; reflexivity. Qed.

Lemma outputCost_eq :
  CostCalculation.outputCost result
  = ((outputTokens + thinkingTokens) / Num.of_Z 1000000 * outputPrice)%js.
Proof. subst result. unfold costCalculation. destruct useCache, useBatch; reflexivity. Qed.

Lemma inputCost_eq :
  CostCalculation.inputCost result
  = if useCache
    then (inputTokens * cacheHitRatio / Num.of_Z 1000000 * inputPrice
            * PRICING_MULTIPLIERS.cacheRead
          + inputTokens * (Num.one - cacheHitRatio) / Num.of_Z 1000000 * inputPrice
            * PRICING_MULTIPLIERS.cacheWrite5min)%js
    else (inputTokens / Num.of_Z 1000000 * inputPrice)%js.
Proof. subst result. unfold costCalculation. destruct useCache, useBatch; reflexivity. Qed.

Lemma cacheDiscount_eq :
  CostCalculation.cacheDiscount result
  = if useCache
    then (inputTokens / Num.of_Z 1000000 * inputPrice
          - CostCalculation.inputCost result)%js
    else Num.zero.
Proof. subst result. unfold costCalculation. destruct useCache, useBatch; reflexivity. Qed.

Lemma batchDiscount_eq :
  CostCalculation.batchDiscount result
  = if useBatch
    then ((CostCalculation.inputCost result + CostCalculation.outputCost result)
          * Num.dec 5 1)%js
    else Num.zero.
Proof. subst result. unfold costCalculation. destruct useCache, useBatch; reflexivity. Qed.

Lemma finalCost_eq :
  CostCalculation.finalCost result
  = if useBatch
    then ((CostCalculation.inputCost result + CostCalculation.outputCost result)
          * Num.dec 5 1)%js
    else (CostCalculation.inputCost result + CostCalculation.outputCost result)%js.
Proof. subst result. unfold costCalculation. destruct useCache, useBatch; reflexivity. Qed.

Lemma baseCost_eq :
  CostCalculation.baseCost result
  = (CostCalculation.inputCost result + CostCalculation.outputCost result
     + (if Num.gtb (CostCalculation.batchDiscount result) Num.zero
        then CostCalculation.batchDiscount result else Num.zero))%js.
Proof. subst result. unfold costCalculation. destruct useCache, useBatch; reflexivity. Qed.

Lemma longContextPremium_eq :
  CostCalculation.longContextPremium result
  = if longContext
    then ((inputPrice - ModelPricing.input (ClaudeModel.pricing model))
          * (inputTokens / Num.of_Z 1000000))%js
    else Num.zero.
Proof. subst result. unfold costCalculation. destruct useCache, useBatch; reflexivity. Qed.

End CostFields.


Lemma costResult_some (key : string) (it ot tt : number) (uc : bool)
    (ratio : number) (ub lc : bool) (r : CostCalculation.t) :
  costResult key it ot tt uc ratio ub lc = Some r ->
  exists model, get CLAUDE_MODELS key = Some model
                /\ r = costCalculation model it ot tt uc ratio ub lc.
Proof.
  unfold costResult. destruct (get CLAUDE_MODELS key) as [model | ]; [ | discriminate].
  intros [= <-]. exists model. split; reflexivity.
Qed.

Lemma token_count_elim (x : number) :
  token_count x = true ->
  Num.valid x = true /\ Num.finite x = true /\ Num.nonneg x = true.
Proof.
  unfold token_count. intros H.
  apply andb_prop in H. destruct H as [H H3].
  apply andb_prop in H. destruct H as [H1 H2]. auto.
Qed.

Lemma hit_ratio_elim (r : number) :
  hit_ratio r = true ->
  Num.valid r = true /\ Num.nonneg r = true /\ Num.leb r Num.one = true
  /\ Num.finite r = true.
Proof.
  unfold hit_ratio. intros H.
  apply andb_prop in H. destruct H as [H H3].
  apply andb_prop in H. destruct H as [H1 H2].
  repeat split; try assumption.
  destruct r as [ s | [ | ] | | s m e ]; try reflexivity; discriminate.
Qed.

(** Every cost of the breakdown is a non-negative number (never NaN and
    never negative) for a usage profile the schema admits. *)
Lemma breakdown_nonneg (key : string) (model : ClaudeModel.t)
    (it ot tt : number) (uc : bool) (ratio : number) (ub lc : bool) :
  get CLAUDE_MODELS key = Some model ->
  token_count it = true -> token_count ot = true -> token_count tt = true ->
  hit_ratio ratio = true ->
  let r := costCalculation model it ot tt uc ratio ub lc in
  Num.nonneg (CostCalculation.inputCost r) = true
  /\ Num.nonneg (CostCalculation.outputCost r) = true.
Proof.
  intros Hk Hit Hot Htt Hr r. subst r.
  destruct (selected_prices_posfin key model lc Hk) as [Hpi Hpo].
  destruct multipliers_posfin as (Hread & Hwrite & _ & Hmillion).
  destruct (token_count_elim it Hit) as (_ & Hitf & Hitn).
  destruct (token_count_elim ot Hot) as (_ & _ & Hotn).
  destruct (token_count_elim tt Htt) as (_ & _ & Httn).
  destruct (hit_ratio_elim ratio Hr) as (Hrv & Hrn & Hrle & Hrf).
  rewrite inputCost_eq, outputCost_eq. split.
  - destruct uc.
    + destruct (one_sub_ratio ratio Hrv Hrn Hrle) as [Hsn Hsf].
      apply add_nonneg.
      * apply mul_nonneg_posfin; [ | assumption].
        apply mul_nonneg_posfin; [ | assumption].
        apply div_nonneg_posfin; [ | assumption].
        apply mul_nonneg_finite; assumption.
      * apply mul_nonneg_posfin; [ | assumption].
        apply mul_nonneg_posfin; [ | assumption].
        apply div_nonneg_posfin; [ | assumption].
        apply mul_nonneg_finite; assumption.
    + apply mul_nonneg_posfin; [ | assumption].
      apply div_nonneg_posfin; assumption.
  - apply mul_nonneg_posfin; [ | assumption].
    apply div_nonneg_posfin; [ | assumption].
    apply add_nonneg; assumption.
Qed.

Lemma finalCost_nonneg (key : string) (model : ClaudeModel.t)
    (it ot tt : number) (uc : bool) (ratio : number) (ub lc : bool) :
  get CLAUDE_MODELS key = Some model ->
  token_count it = true -> token_count ot = true -> token_count tt = true ->
  hit_ratio ratio = true ->
  Num.nonneg (CostCalculation.finalCost
                (costCalculation model it ot tt uc ratio ub lc)) = true.
Proof.
  intros Hk Hit Hot Htt Hr.
  destruct (breakdown_nonneg key model it ot tt uc ratio ub lc Hk Hit Hot Htt Hr)
    as [Hin Hout].
  destruct multipliers_posfin as (_ & _ & Hhalf & _).
  rewrite finalCost_eq. destruct ub.
  - apply mul_nonneg_posfin; [ | assumption]. apply add_nonneg; assumption.
  - apply add_nonneg; assumption.
Qed.

(** C7. For every known model and every usage profile with non-negative
    token counts and a cache hit ratio in [0, 1], the final cost reported
    by the calculator is greater than or equal to 0, under every
    combination of the cache, batch and long-context flags. *)
Theorem C7_final_cost_nonnegative (key : string) (it ot tt : number)
    (uc : bool) (ratio : number) (ub lc : bool) (r : CostCalculation.t) :
  costResult key it ot tt uc ratio ub lc = Some r ->
  token_count it = true -> token_count ot = true -> token_count tt = true ->
  hit_ratio ratio = true ->
  Num.leb Num.zero (CostCalculation.finalCost r) = true.
Proof.
  intros Hres Hit Hot Htt Hr.
  destruct (costResult_some _ _ _ _ _ _ _ _ _ Hres) as (model & Hk & ->).
  apply nonneg_leb_zero.
  apply finalCost_nonneg with (key := key); assumption.
Qed.

Lemma C7_final_cost_nonnegative_witness :
  exists r,
    costResult "sonnet_4_5" (Num.of_Z 10000) (Num.of_Z 2000) (Num.of_Z 5000)
      true (Num.dec 9 1) true true = Some r
    /\ Num.leb Num.zero (CostCalculation.finalCost r) = true.
Proof.
  eexists. split; [reflexivity | ].
  apply (C7_final_cost_nonnegative "sonnet_4_5" (Num.of_Z 10000) (Num.of_Z 2000)
           (Num.of_Z 5000) true (Num.dec 9 1) true true);
    vm_compute; reflexivity.
Defined.


Lemma mul_comm (x y : number) : Num.mul x y = Num.mul y x.
Proof.
  destruct x as [ sx | sx | | sx mx ex ], y as [ sy | sy | | sy my ey ];
    lazymatch goal with
    | |- Num.mul (S754_finite _ _ _) (S754_finite _ _ _) = _ =>
        unfold Num.mul, SFmul;
        rewrite (Pos.mul_comm mx my), (Z.add_comm ex ey), (xorb_comm sx sy);
        reflexivity
    | |- _ =>
        unfold Num.mul, SFmul; try rewrite (xorb_comm sx sy); reflexivity
    end.
Qed.

Lemma add_comm (x y : number) : Num.add x y = Num.add y x.
Proof.
  destruct x as [ [ | ] | [ | ] | | sx mx ex ], y as [ [ | ] | [ | ] | | sy my ey ];
    lazymatch goal with
    | |- Num.add (S754_finite _ _ _) (S754_finite _ _ _) = _ =>
        unfold Num.add, SFadd;
        rewrite (Z.min_comm ex ey), Z.add_comm; reflexivity
    | |- _ => reflexivity
    end.
Qed.

Lemma selected_price_base (model : ClaudeModel.t) :
  selectedInputPrice model false = ModelPricing.input (ClaudeModel.pricing model)
  /\ selectedOutputPrice model false = ModelPricing.output (ClaudeModel.pricing model).
Proof.
  unfold selectedInputPrice, selectedOutputPrice.
  destruct (ModelPricing.longContextInput _), (ModelPricing.longContextOutput _);
    split; reflexivity.
Qed.

(** C1, against the claim as written.  For Sonnet 4.5 with 1,000,000
    input tokens at long-context pricing the final cost is 6 while base
    cost minus discounts plus premium is 9. *)
Lemma C1_accounting_identity_counterexample :
  exists r,
    costResult "sonnet_4_5" (Num.of_Z 1000000) Num.zero Num.zero
      false (Num.dec 9 1) false true = Some r
    /\ CostCalculation.finalCost r = Num.of_Z 6
    /\ (CostCalculation.baseCost r - CostCalculation.cacheDiscount r
        - CostCalculation.batchDiscount r + CostCalculation.longContextPremium r)%js
       = Num.of_Z 9
    /\ strictEquals (CostCalculation.finalCost r)
         (CostCalculation.baseCost r - CostCalculation.cacheDiscount r
          - CostCalculation.batchDiscount r
          + CostCalculation.longContextPremium r)%js = false.
Proof.
  eexists. split; [reflexivity | ].
  split; [vm_compute; reflexivity | ].
  split; vm_compute; reflexivity.
Qed.

(** C1, as amended.  For every known model and admitted usage profile the
    final cost is the sum of the two costs of the breakdown, halved when
    batch use is requested; without batch use the reported base cost is
    that same sum and the batch discount is zero.  The cache discount and
    the long-context premium are no terms of it: the breakdown is already
    computed at the cache-adjusted, long-context prices. *)
Theorem C1_final_cost_accounting (key : string) (it ot tt : number)
    (uc : bool) (ratio : number) (ub lc : bool) (r : CostCalculation.t) :
  costResult key it ot tt uc ratio ub lc = Some r ->
  token_count it = true -> token_count ot = true -> token_count tt = true ->
  hit_ratio ratio = true ->
  CostCalculation.finalCost r
  = (if ub
     then (CostCalculation.inputCost r + CostCalculation.outputCost r) * Num.dec 5 1
     else CostCalculation.inputCost r + CostCalculation.outputCost r)%js
  /\ (ub = false ->
      CostCalculation.baseCost r = CostCalculation.finalCost r
      /\ CostCalculation.batchDiscount r = Num.zero).
Proof.
  intros Hres Hit Hot Htt Hr.
  destruct (costResult_some _ _ _ _ _ _ _ _ _ Hres) as (model & Hk & ->).
  split; [apply finalCost_eq | ].
  intros ->.
  destruct (breakdown_nonneg key model it ot tt uc ratio false lc Hk Hit Hot Htt Hr)
    as [Hin Hout].
  rewrite baseCost_eq, batchDiscount_eq, finalCost_eq.
  split; [ | reflexivity].
  change (Num.gtb Num.zero Num.zero) with false. cbv iota.
  apply add_zero_r. apply nonneg_not_negzero. apply add_nonneg; assumption.
Qed.

Lemma C1_final_cost_accounting_witness :
  exists r,
    costResult "sonnet_4_5" (Num.of_Z 1000000) Num.zero Num.zero
      true (Num.dec 9 1) false true = Some r
    /\ CostCalculation.baseCost r = CostCalculation.finalCost r.
Proof.
  assert (Hit : token_count (Num.of_Z 1000000) = true) by (vm_compute; reflexivity).
  assert (Hot : token_count Num.zero = true) by (vm_compute; reflexivity).
  assert (Hr : hit_ratio (Num.dec 9 1) = true) by (vm_compute; reflexivity).
  eexists. split; [reflexivity | ].
  destruct (C1_final_cost_accounting "sonnet_4_5" (Num.of_Z 1000000) Num.zero
              Num.zero true (Num.dec 9 1) false true _ eq_refl Hit Hot Hot Hr)
    as [_ H].
  destruct (H eq_refl) as [Hb _]. exact Hb.
Defined.

(** C2, against the claim as written.  For Sonnet 4.5 with 1,000,000
    input tokens and a cache hit ratio of 0.1 the reported cache discount
    is negative although the ratio is positive. *)
Lemma C2_cache_discount_counterexample :
  exists r,
    costResult "sonnet_4_5" (Num.of_Z 1000000) Num.zero Num.zero
      true (Num.dec 1 1) false false = Some r
    /\ Num.gtb (Num.dec 1 1) Num.zero = true
    /\ Num.leb Num.zero (CostCalculation.cacheDiscount r) = false
    /\ Num.ltb (CostCalculation.cacheDiscount r) Num.zero = true.
Proof.
  eexists. split; [reflexivity | ].
  split; [vm_compute; reflexivity | ].
  split; vm_compute; reflexivity.
Qed.

(** C2, as amended.  The reported cache discount is exactly zero when
    cache use is not requested; when it is requested the discount is the
    original input cost minus the input cost recomputed from the hits at
    the cache-read multiplier and the misses at the 5-minute cache-write
    multiplier.  Its sign is not fixed by the ratio being positive. *)
Theorem C2_cache_discount (key : string) (model : ClaudeModel.t)
    (it ot tt : number) (uc : bool) (ratio : number) (ub lc : bool) :
  get CLAUDE_MODELS key = Some model ->
  let r := costCalculation model it ot tt uc ratio ub lc in
  let inputPrice := selectedInputPrice model lc in
  (uc = false -> CostCalculation.cacheDiscount r = Num.zero)
  /\ (uc = true ->
      CostCalculation.cacheDiscount r
      = (it / Num.of_Z 1000000 * inputPrice - CostCalculation.inputCost r)%js
      /\ CostCalculation.inputCost r
         = (it * ratio / Num.of_Z 1000000 * inputPrice * PRICING_MULTIPLIERS.cacheRead
            + it * (Num.one - ratio) / Num.of_Z 1000000 * inputPrice
              * PRICING_MULTIPLIERS.cacheWrite5min)%js).
Proof.
  intros _ r inputPrice. subst r inputPrice.
  split; intros ->.
  - rewrite cacheDiscount_eq. reflexivity.
  - rewrite cacheDiscount_eq, inputCost_eq. split; reflexivity.
Qed.

Lemma C2_cache_discount_witness :
  CostCalculation.cacheDiscount
    (costCalculation sonnet_4_5 (Num.of_Z 1000000) Num.zero Num.zero
       false (Num.dec 9 1) false false) = Num.zero.
Proof.
  destruct (C2_cache_discount "sonnet_4_5" sonnet_4_5 (Num.of_Z 1000000) Num.zero
              Num.zero false (Num.dec 9 1) false false) as [H _];
    [reflexivity | ].
  exact (H eq_refl).
Defined.


(** C3. For every model and every usage profile with no thinking tokens
    and cache, batch and long-context pricing all disabled, the final cost
    is input tokens / 1,000,000 times the base input price plus output
    tokens / 1,000,000 times the base output price.  For Sonnet 4.5 with
    10,000 input, 2,000 output and 5,000 thinking tokens the total output
    is 7,000 tokens, the input cost 0.03, the output cost 0.105 and the
    final cost 0.135, as doubles. *)
Theorem C3_plain_cost (key : string) (model : ClaudeModel.t)
    (it ot ratio : number) :
  get CLAUDE_MODELS key = Some model ->
  token_count ot = true ->
  CostCalculation.finalCost
    (costCalculation model it ot Num.zero false ratio false false)
  = (it / Num.of_Z 1000000 * ModelPricing.input (ClaudeModel.pricing model)
     + ot / Num.of_Z 1000000 * ModelPricing.output (ClaudeModel.pricing model))%js
  /\ (let example :=
        costCalculation sonnet_4_5 (Num.of_Z 10000) (Num.of_Z 2000) (Num.of_Z 5000)
          false (Num.dec 9 1) false false in
      CostCalculation.totalOutputTokens example = Num.of_Z 7000
      /\ CostCalculation.inputCost example = Num.dec 3 2
      /\ CostCalculation.outputCost example = Num.dec 105 3
      /\ CostCalculation.finalCost example = Num.dec 135 3).
Proof.
  intros _ Hot. split.
  - destruct (token_count_elim ot Hot) as (_ & _ & Hn).
    destruct (selected_price_base model) as [Hi Ho].
    rewrite finalCost_eq, inputCost_eq, outputCost_eq, Hi, Ho.
    rewrite (add_zero_r ot (nonneg_not_negzero ot Hn)). reflexivity.
  - cbv zeta.
    split; [vm_compute; reflexivity | ].
    split; [vm_compute; reflexivity | ].
    split; vm_compute; reflexivity.
Qed.

Lemma C3_plain_cost_witness :
  CostCalculation.finalCost
    (costCalculation haiku_4_5 (Num.of_Z 1000) (Num.of_Z 500) Num.zero
       false (Num.dec 9 1) false false)
  = (Num.of_Z 1000 / Num.of_Z 1000000 * ModelPricing.input (ClaudeModel.pricing haiku_4_5)
     + Num.of_Z 500 / Num.of_Z 1000000
       * ModelPricing.output (ClaudeModel.pricing haiku_4_5))%js.
Proof.
  assert (Hot : token_count (Num.of_Z 500) = true) by (vm_compute; reflexivity).
  destruct (C3_plain_cost "haiku_4_5" haiku_4_5 (Num.of_Z 1000) (Num.of_Z 500)
              (Num.dec 9 1) eq_refl Hot) as [H _].
  exact H.
Defined.

(** C5. For every known model and usage profile, the final cost with
    batch use is exactly the final cost without it times 0.5, all other
    arguments equal, and the reported batch discount is the amount taken
    off: half of the combined input and output cost after the cache
    adjustment. *)
Theorem C5_batch_halves (key : string) (model : ClaudeModel.t)
    (it ot tt : number) (uc : bool) (ratio : number) (lc : bool) :
  get CLAUDE_MODELS key = Some model ->
  let batch := costCalculation model it ot tt uc ratio true lc in
  let plain := costCalculation model it ot tt uc ratio false lc in
  CostCalculation.finalCost batch = (CostCalculation.finalCost plain * Num.dec 5 1)%js
  /\ CostCalculation.finalCost batch = (Num.dec 5 1 * CostCalculation.finalCost plain)%js
  /\ CostCalculation.batchDiscount batch
     = ((CostCalculation.inputCost batch + CostCalculation.outputCost batch)
        * Num.dec 5 1)%js
  /\ CostCalculation.batchDiscount batch = CostCalculation.finalCost batch
  /\ CostCalculation.inputCost batch = CostCalculation.inputCost plain
  /\ CostCalculation.outputCost batch = CostCalculation.outputCost plain
  /\ CostCalculation.batchDiscount plain = Num.zero.
Proof.
  intros _ batch plain. subst batch plain.
  assert (Hfinal :
    CostCalculation.finalCost (costCalculation model it ot tt uc ratio true lc)
    = (CostCalculation.finalCost (costCalculation model it ot tt uc ratio false lc)
       * Num.dec 5 1)%js).
  { rewrite !finalCost_eq, !inputCost_eq, !outputCost_eq. reflexivity. }
  split; [exact Hfinal | ].
  split; [rewrite Hfinal; apply mul_comm | ].
  split; [rewrite batchDiscount_eq; reflexivity | ].
  split; [rewrite batchDiscount_eq, finalCost_eq; reflexivity | ].
  split; [rewrite !inputCost_eq; reflexivity | ].
  split; [rewrite !outputCost_eq; reflexivity | ].
  rewrite batchDiscount_eq. reflexivity.
Qed.

Lemma C5_batch_halves_witness :
  CostCalculation.finalCost
    (costCalculation opus_4_5 (Num.of_Z 10000) (Num.of_Z 2000) Num.zero
       true (Num.dec 9 1) true false)
  = (CostCalculation.finalCost
       (costCalculation opus_4_5 (Num.of_Z 10000) (Num.of_Z 2000) Num.zero
          true (Num.dec 9 1) false false) * Num.dec 5 1)%js.
Proof.
  destruct (C5_batch_halves "opus_4_5" opus_4_5 (Num.of_Z 10000) (Num.of_Z 2000)
              Num.zero true (Num.dec 9 1) false eq_refl) as [H _].
  exact H.
Defined.

Lemma gtb_zero_posfin_or_inf (x : number) :
  (exists p e, x = S754_finite false p e) \/ x = S754_infinity false ->
  Num.gtb x Num.zero = true.
Proof. intros [(p & e & ->) | ->]; reflexivity. Qed.

(** The price difference of the only catalogue model with long-context
    prices. *)
Lemma long_context_models (key : string) (model : ClaudeModel.t) :
  get CLAUDE_MODELS key = Some model ->
  is_truthy (ModelPricing.longContextInput (ClaudeModel.pricing model)) = true ->
  model = sonnet_4_5.
Proof.
  intros Hk Ht.
  destruct (known_model key model Hk) as [[_ ->] | [[_ ->] | [_ ->]]];
    [discriminate | reflexivity | discriminate].
Qed.

Lemma sonnet_premium_rate :
  (selectedInputPrice sonnet_4_5 true
   - ModelPricing.input (ClaudeModel.pricing sonnet_4_5))%js
  = S754_finite false 6755399441055744 (-51).
Proof. vm_compute. reflexivity. Qed.




Lemma zero_mul_finite_nonneg (x : number) :
  Num.finite x = true -> Num.nonneg x = true ->
  Num.mul Num.zero x = Num.zero.
Proof.
  destruct x as [ [ | ] | [ | ] | | [ | ] m e ]; intros Hf Hn;
    try discriminate; reflexivity.
Qed.

Lemma base_price_difference (key : string) (model : ClaudeModel.t) :
  get CLAUDE_MODELS key = Some model ->
  (ModelPricing.input (ClaudeModel.pricing model)
   - ModelPricing.input (ClaudeModel.pricing model))%js = Num.zero.
Proof.
  intros Hk.
  destruct (known_model key model Hk) as [[_ ->] | [[_ ->] | [_ ->]]];
    vm_compute; reflexivity.
Qed.

(** C10. For every catalogue model whose pricing defines neither
    long-context price (Opus 4.5 and Haiku 4.5) and every usage profile,
    requesting long-context pricing changes nothing: the selected prices
    stay the base prices, the reported premium is 0 and the result and its
    rendering are those of the same call without long-context pricing. *)
Theorem C10_long_context_without_prices (key : string) (model : ClaudeModel.t)
    (it ot tt : number) (uc : bool) (ratio : number) (ub : bool) :
  get CLAUDE_MODELS key = Some model ->
  ModelPricing.longContextInput (ClaudeModel.pricing model) = None ->
  ModelPricing.longContextOutput (ClaudeModel.pricing model) = None ->
  token_count it = true ->
  selectedInputPrice model true = ModelPricing.input (ClaudeModel.pricing model)
  /\ selectedOutputPrice model true = ModelPricing.output (ClaudeModel.pricing model)
  /\ CostCalculation.longContextPremium
       (costCalculation model it ot tt uc ratio ub true) = Num.zero
  /\ costCalculation model it ot tt uc ratio ub true
     = costCalculation model it ot tt uc ratio ub false
  /\ (forall (rt : Runtime) (format : Format),
        calculateCost key it ot tt uc ratio ub true format
        = calculateCost key it ot tt uc ratio ub false format).
Proof.
  intros Hk Hin Hout Hit.
  assert (Hsi : selectedInputPrice model true
                = ModelPricing.input (ClaudeModel.pricing model)).
  { unfold selectedInputPrice. rewrite Hin. reflexivity. }
  assert (Hso : selectedOutputPrice model true
                = ModelPricing.output (ClaudeModel.pricing model)).
  { unfold selectedOutputPrice. rewrite Hout. reflexivity. }
  destruct (selected_price_base model) as [Hbi Hbo].
  assert (Hprem : CostCalculation.longContextPremium
                    (costCalculation model it ot tt uc ratio ub true) = Num.zero).
  { rewrite longContextPremium_eq, Hsi, (base_price_difference key model Hk).
    destruct (token_count_elim it Hit) as (Hv & Hf & Hn).
    destruct multipliers_posfin as (_ & _ & _ & Hmillion).
    apply zero_mul_finite_nonneg.
    - apply div_million_finite; assumption.
    - apply div_nonneg_posfin; assumption. }
  assert (Heq : costCalculation model it ot tt uc ratio ub true
                = costCalculation model it ot tt uc ratio ub false).
  { rewrite longContextPremium_eq in Hprem.
    unfold costCalculation.
    rewrite Hsi, Hso, Hbi, Hbo. rewrite Hsi in Hprem.
    destruct uc, ub; cbv beta iota zeta; rewrite Hprem; reflexivity. }
  repeat (split; [assumption | ]).
  intros rt format. unfold calculateCost, costResult. rewrite Hk, Heq. reflexivity.
Qed.

Lemma C10_long_context_without_prices_witness :
  costCalculation opus_4_5 (Num.of_Z 300000) (Num.of_Z 2000) (Num.of_Z 100)
    true (Num.dec 9 1) true true
  = costCalculation opus_4_5 (Num.of_Z 300000) (Num.of_Z 2000) (Num.of_Z 100)
      true (Num.dec 9 1) true false.
Proof.
  assert (Hit : token_count (Num.of_Z 300000) = true) by (vm_compute; reflexivity).
  destruct (C10_long_context_without_prices "opus_4_5" opus_4_5 (Num.of_Z 300000)
              (Num.of_Z 2000) (Num.of_Z 100) true (Num.dec 9 1) true
              eq_refl eq_refl eq_refl Hit) as (_ & _ & _ & H & _).
  exact H.
Defined.


(** ** Sorting *)

Section SortFacts.
Variable A : Type.
Variable compareFn : A -> A -> number.

Lemma sort_insert_perm (x : A) (l : list A) :
  Permutation (x :: l) (sort_insert compareFn x l).
Proof.
  induction l as [ | y l IH]; cbn [sort_insert]; [reflexivity | ].
  destruct (Num.gtb (compareFn x y) Num.zero); [ | reflexivity].
  rewrite perm_swap. apply perm_skip. exact IH.
Qed.

Lemma Array_sort_perm (l : list A) : Permutation l (Array_sort compareFn l).
Proof.
  induction l as [ | x l IH]; cbn [Array_sort fold_right]; [reflexivity | ].
  rewrite <- sort_insert_perm. apply perm_skip. exact IH.
Qed.

Lemma Array_sort_length (l : list A) :
  List.length (Array_sort compareFn l) = List.length l.
Proof. symmetry. apply Permutation_length. apply Array_sort_perm. Qed.

(** When the comparator orders the elements by a key (it is positive
    exactly when the first key is smaller), the sort ranks the list by
    decreasing key and keeps elements of equal key in their order. *)
Variable P : A -> Prop.
Variable k : A -> Z.
Hypothesis compare_key :
  forall x y, P x -> P y -> Num.gtb (compareFn x y) Num.zero = (k x <? k y).

Lemma sort_insert_Forall (Q : A -> Prop) (x : A) (l : list A) :
  Q x -> Forall Q l -> Forall Q (sort_insert compareFn x l).
Proof.
  intros Hx Hl.
  apply (Permutation_Forall (sort_insert_perm x l)). constructor; assumption.
Qed.

Lemma Array_sort_Forall (Q : A -> Prop) (l : list A) :
  Forall Q l -> Forall Q (Array_sort compareFn l).
Proof. intros Hl. apply (Permutation_Forall (Array_sort_perm l)). exact Hl. Qed.

Lemma sort_insert_sorted (x : A) (l : list A) :
  P x -> Forall P l ->
  StronglySorted (fun a b => k b <= k a) l ->
  StronglySorted (fun a b => k b <= k a) (sort_insert compareFn x l).
Proof.
  intros Hx Hl Hs. induction Hs as [ | y l Hs IH Hy]; cbn [sort_insert].
  - constructor; constructor.
  - inversion Hl as [ | ? ? HPy HPl]; subst.
    rewrite (compare_key x y Hx HPy).
    destruct (Z.ltb_spec (k x) (k y)) as [Hlt | Hge].
    + constructor; [apply IH; assumption | ].
      apply sort_insert_Forall; [lia | assumption].
    + constructor; [constructor; assumption | ].
      constructor; [assumption | ].
      apply Forall_impl with (P := fun b => k b <= k y); [ | assumption].
      intros b Hb. lia.
Qed.

Lemma Array_sort_sorted (l : list A) :
  Forall P l -> StronglySorted (fun a b => k b <= k a) (Array_sort compareFn l).
Proof.
  induction l as [ | x l IH]; intros Hl; cbn [Array_sort fold_right].
  - constructor.
  - inversion Hl as [ | ? ? Hx Hl']; subst.
    apply sort_insert_sorted; [assumption | | apply IH; assumption].
    apply Array_sort_Forall. assumption.
Qed.

Lemma filter_sort_insert (f : A -> bool) (x : A) (l : list A) :
  P x -> Forall P l ->
  (forall y, In y l -> f x = true -> f y = true -> k x = k y) ->
  filter f (sort_insert compareFn x l)
  = if f x then x :: filter f l else filter f l.
Proof.
  intros Hx Hl Hf. induction l as [ | y l IH]; cbn [sort_insert].
  - cbn [filter]. destruct (f x); reflexivity.
  - inversion Hl as [ | ? ? HPy HPl]; subst.
    rewrite (compare_key x y Hx HPy).
    destruct (Z.ltb_spec (k x) (k y)) as [Hlt | Hge].
    + cbn [filter]. rewrite IH; [ | assumption | ].
      * destruct (f x) eqn:Efx, (f y) eqn:Efy; try reflexivity.
        assert (k x = k y) by (apply Hf; [left; reflexivity | reflexivity | assumption]).
        lia.
      * intros z Hz. apply Hf. right. assumption.
    + cbn [filter]. destruct (f x); reflexivity.
Qed.

Lemma filter_Array_sort (f : A -> bool) (l : list A) :
  Forall P l ->
  (forall x y, In x l -> In y l -> f x = true -> f y = true -> k x = k y) ->
  filter f (Array_sort compareFn l) = filter f l.
Proof.
  induction l as [ | x l IH]; intros Hl Hf; cbn [Array_sort fold_right]; [reflexivity | ].
  inversion Hl as [ | ? ? Hx Hl']; subst.
  rewrite filter_sort_insert.
  - cbn [filter]. fold (Array_sort compareFn l).
    rewrite IH; [reflexivity | assumption | ].
    intros a b Ha Hb. apply Hf; right; assumption.
  - assumption.
  - apply Array_sort_Forall. assumption.
  - intros y Hy. apply Hf; [left; reflexivity | right].
    apply (Permutation_in y (Permutation_sym (Array_sort_perm l))). exact Hy.
Qed.

End SortFacts.


(** ** Relevance scores *)

Lemma relevanceScores_cases (v : number) :
  In v relevanceScores ->
  v = Num.of_Z 1 \/ v = Num.dec 9 1 \/ v = Num.dec 8 1 \/ v = Num.dec 7 1.
Proof.
  cbn [relevanceScores In].
  intros [H | [H | [H | [H | []]]]]; subst v; auto.
Qed.

Lemma byRelevance_rank (a b : SearchResult.t) :
  In (SearchResult.relevance a) relevanceScores ->
  In (SearchResult.relevance b) relevanceScores ->
  Num.gtb (byRelevance a b) Num.zero
  = (relevanceRank (SearchResult.relevance a) <? relevanceRank (SearchResult.relevance b)).
Proof.
  unfold byRelevance. intros Ha Hb.
  destruct (relevanceScores_cases _ Ha) as [-> | [-> | [-> | ->]]];
  destruct (relevanceScores_cases _ Hb) as [-> | [-> | [-> | ->]]];
    vm_compute; reflexivity.
Qed.

Lemma relevanceRank_leb (a b : number) :
  In a relevanceScores -> In b relevanceScores ->
  relevanceRank b <= relevanceRank a -> Num.leb b a = true.
Proof.
  intros Ha Hb.
  destruct (relevanceScores_cases _ Ha) as [-> | [-> | [-> | ->]]];
  destruct (relevanceScores_cases _ Hb) as [-> | [-> | [-> | ->]]];
    vm_compute; intros H; try reflexivity; exfalso; apply H; reflexivity.
Qed.

Lemma relevanceScores_range (v : number) :
  In v relevanceScores -> Num.ltb Num.zero v = true /\ Num.leb v Num.one = true.
Proof.
  intros Hv.
  destruct (relevanceScores_cases _ Hv) as [-> | [-> | [-> | ->]]];
    split; vm_compute; reflexivity.
Qed.

Lemma strictEquals_finite (s : bool) (m : positive) (e : Z) (v : number) :
  strictEquals (S754_finite s m e) v = true -> v = S754_finite s m e.
Proof.
  unfold strictEquals, SFeqb, SFcompare.
  destruct v as [ sv | sv | | sv mv ev ]; try (destruct s; discriminate).
  { destruct sv; discriminate. }
  destruct s, sv; try discriminate;
    destruct (Z.compare_spec e ev) as [-> | ? | ?]; try discriminate;
    rewrite Pos.compare_cont_spec; cbn [Pos.switch_Eq];
    destruct (Pos.compare_spec m mv) as [-> | ? | ?]; try discriminate;
    reflexivity.
Qed.

Lemma strictEquals_score (x v : number) :
  In x relevanceScores -> strictEquals x v = true -> v = x.
Proof.
  intros Hx.
  destruct (relevanceScores_cases _ Hx) as [-> | [-> | [-> | ->]]];
    apply strictEquals_finite.
Qed.


Section SearchFacts.
Context {rt : Runtime}.

Lemma Forall_push (A : Type) (Q : A -> Prop) (c : bool) (l : list A) (x : A) :
  Forall Q l -> Q x -> Forall Q (if c then l ++ [x] else l).
Proof.
  intros Hl Hx. destruct c; [ | assumption].
  apply Forall_app. split; [assumption | constructor; [assumption | constructor]].
Qed.

Lemma searchMatches_scores (lowerQuery : string) :
  Forall (fun x => In (SearchResult.relevance x) relevanceScores)
         (searchMatches lowerQuery).
Proof.
  unfold searchMatches. cbv zeta.
  apply Forall_push; [ | cbn [SearchResult.relevance relevanceScores In]; tauto].
  apply Forall_push; [ | cbn [SearchResult.relevance relevanceScores In]; tauto].
  apply Forall_push; [ | cbn [SearchResult.relevance relevanceScores In]; tauto].
  cbn [app].
  apply Forall_flat_map. apply Forall_forall. intros [key model] _.
  destruct (modelMatches lowerQuery model); [ | constructor].
  constructor; [ | constructor].
  cbn [SearchResult.relevance].
  destruct (includes _ lowerQuery); cbn [relevanceScores In]; tauto.
Qed.

Lemma searchResults_scores (query : string) :
  Forall (fun x => In (SearchResult.relevance x) relevanceScores)
         (searchResults query).
Proof. apply Array_sort_Forall. apply searchMatches_scores. Qed.

Lemma searchDocs_nonempty (query : string) :
  searchResults query <> [] ->
  searchDocs query markdown
  = (searchHeader query (searchResults query)
     ++ pieces (map renderResult (firstn 3 (searchResults query))))%string
  /\ searchDocs query json
     = JSON_stringify_pretty
         (JObject
            [ ("query"%string, JString query);
              ("results"%string, JArray (map SearchResult_toJSON (searchResults query))) ]).
Proof.
  intros Hne. unfold searchDocs.
  destruct (searchResults query) as [ | x xs]; [congruence | ].
  split; reflexivity.
Qed.

Lemma searchDocs_empty (query : string) :
  searchResults query = [] ->
  searchDocs query markdown = noResultsMarkdown query
  /\ searchDocs query json = JSON_stringify (noResultsJSON query).
Proof.
  intros He. unfold searchDocs. rewrite He. split; reflexivity.
Qed.

End SearchFacts.

(** C9. For every query the result list is the list of matches ranked by
    decreasing relevance, matches of equal relevance staying in the order
    in which the groups produced them; every relevance lies in (0, 1]; the
    markdown rendering shows the first three results at most and the JSON
    rendering holds all of them. *)
Theorem C9_search_ranking (rt : Runtime) (query : string) :
  let matches := searchMatches (toLowerCase query) in
  let results := searchResults query in
  Permutation matches results
  /\ StronglySorted atLeastAsRelevant results
  /\ (forall v, withRelevance v results = withRelevance v matches)
  /\ Forall (fun x => Num.ltb Num.zero (SearchResult.relevance x) = true
                      /\ Num.leb (SearchResult.relevance x) Num.one = true) results
  /\ (results <> [] ->
      (List.length (firstn 3 results) <= 3)%nat
      /\ searchDocs query markdown
         = (searchHeader query results
            ++ pieces (map renderResult (firstn 3 results)))%string
      /\ searchDocs query json
         = JSON_stringify_pretty
             (JObject
                [ ("query"%string, JString query);
                  ("results"%string, JArray (map SearchResult_toJSON results)) ])).
Proof.
  intros matches results. subst matches results.
  pose (P := fun x : SearchResult.t => In (SearchResult.relevance x) relevanceScores).
  pose (k := fun x : SearchResult.t => relevanceRank (SearchResult.relevance x)).
  assert (Hkey : forall x y, P x -> P y ->
            Num.gtb (byRelevance x y) Num.zero = (k x <? k y)).
  { intros x y Hx Hy. apply byRelevance_rank; assumption. }
  assert (Hm := searchMatches_scores (toLowerCase query)).
  split; [apply Array_sort_perm | ].
  split.
  { unfold searchResults.
    assert (Hs := Array_sort_sorted _ byRelevance P k Hkey _ Hm).
    assert (Hf := Array_sort_Forall _ byRelevance P _ Hm).
    revert Hs Hf. generalize (Array_sort byRelevance (searchMatches (toLowerCase query))).
    intros l Hs. induction Hs as [ | a l Hs IH Ha]; intros Hf; constructor.
    - apply IH. inversion Hf; assumption.
    - inversion Hf as [ | ? ? HPa HPl]; subst.
      rewrite Forall_forall in *. intros b Hb.
      apply relevanceRank_leb; [exact HPa | apply HPl; exact Hb | apply Ha; exact Hb]. }
  split.
  { intros v. unfold withRelevance, searchResults.
    apply (filter_Array_sort _ byRelevance P k Hkey); [exact Hm | ].
    rewrite Forall_forall in Hm.
    intros x y Hx Hy Hfx Hfy. unfold k.
    rewrite <- (strictEquals_score _ v (Hm x Hx) Hfx).
    rewrite <- (strictEquals_score _ v (Hm y Hy) Hfy). reflexivity. }
  split.
  { apply Forall_impl with (P := P); [ | apply searchResults_scores].
    intros x Hx. apply relevanceScores_range. exact Hx. }
  intros Hne. split; [apply firstn_le_length | ].
  apply searchDocs_nonempty. exact Hne.
Qed.


Lemma C9_search_ranking_witness :
  searchResults (rt := blankRuntime) "context" <> []
  /\ (List.length (firstn 3 (searchResults (rt := blankRuntime) "context")) <= 3)%nat.
Proof.
  assert (Hne : searchResults (rt := blankRuntime) "context" <> [])
    by (vm_compute; discriminate).
  destruct (C9_search_ranking blankRuntime "context") as (_ & _ & _ & _ & H).
  split; [exact Hne | exact (proj1 (H Hne))].
Defined.

(** C8, on the code.  The query [pricing] matches no group: none of the
    pricing keywords [price], [cost], [token], [$] occurs in it, so the
    search returns the no-results message in both formats instead of the
    pricing section.  The query [zz] returns the no-results message as
    the claim says. *)
Theorem C8_search_pricing_finds_nothing (rt : Runtime) :
  searchResults "pricing" = []
  /\ searchDocs "pricing" markdown = noResultsMarkdown "pricing"
  /\ searchDocs "pricing" json = JSON_stringify (noResultsJSON "pricing")
  /\ searchResults "zz" = []
  /\ searchDocs "zz" markdown = noResultsMarkdown "zz"
  /\ searchDocs "zz" json = JSON_stringify (noResultsJSON "zz").
Proof.
  assert (Hp : searchResults "pricing" = []) by (vm_compute; reflexivity).
  assert (Hz : searchResults "zz" = []) by (vm_compute; reflexivity).
  destruct (searchDocs_empty "pricing" Hp) as [Hp1 Hp2].
  destruct (searchDocs_empty "zz" Hz) as [Hz1 Hz2].
  repeat (split; [assumption | ]). assumption.
Qed.

(** C4, on the code.  For a key that is not in the catalogue the
    calculator, the model info and the pricing lookup return their
    not-found message, but the token-limits lookup does not: it returns
    the limits table without a model row (markdown) or with an empty
    [models] object (JSON). *)
Theorem C4_token_limits_has_no_not_found_message (rt : Runtime) :
  (forall format,
     calculateCost "gpt_4" (Num.of_Z 1000) (Num.of_Z 1000) Num.zero
       false (Num.dec 9 1) false false format
     = "Error: Model 'gpt_4' not found."%string)
  /\ (forall format,
        getModelInfo "gpt_4" format
        = "Error: Model 'gpt_4' not found. Available: opus_4_5, sonnet_4_5, haiku_4_5"%string)
  /\ (forall includeDiscounts format,
        getPricing "gpt_4" includeDiscounts format
        = "Error: Model 'gpt_4' not found."%string)
  /\ getTokenLimits "gpt_4" markdown = (tokenLimitsHeader ++ thinkingBudgetLimits)%string
  /\ String.prefix "# Token Limits" (getTokenLimits "gpt_4" markdown) = true
  /\ String.prefix "Error" (getTokenLimits "gpt_4" markdown) = false
  /\ getTokenLimits "gpt_4" json
     = JSON_stringify_pretty
         (JObject
            [ ("models"%string, JObject []);
              ("limits"%string,
               JObject
                 [ ("standard"%string, JNumber CONTEXT_LIMITS.standard);
                   ("extended"%string, JNumber CONTEXT_LIMITS.extended);
                   ("maxOutput"%string, JNumber CONTEXT_LIMITS.maxOutput);
                   ("longContextThreshold"%string,
                    JNumber CONTEXT_LIMITS.longContextThreshold) ]);
              ("thinking"%string,
               JObject
                 [ ("minBudget"%string, JNumber THINKING_CONFIG.minBudget);
                   ("recommendedStart"%string, JNumber THINKING_CONFIG.recommendedStart);
                   ("largeBudgetThreshold"%string,
                    JNumber THINKING_CONFIG.largeBudgetThreshold) ]) ]).
Proof.
  split; [intros format; reflexivity | ].
  split; [intros format; reflexivity | ].
  split; [intros includeDiscounts format; reflexivity | ].
  split; [reflexivity | ].
  split; [reflexivity | ].
  split; reflexivity.
Qed.

(* ------------------------------------------------------------------ *)
(** ** Further properties of the service *)

(** X1. Thinking tokens are billed as output tokens: exchanging the
    output and the thinking token counts changes no amount of the result,
    so a call with (output 0, thinking T) costs what a call with
    (output T, thinking 0) costs. *)
Theorem thinking_tokens_billed_as_output (model : ClaudeModel.t)
    (it ot tt : number) (uc : bool) (ratio : number) (ub lc : bool) :
  let a := costCalculation model it ot tt uc ratio ub lc in
  let b := costCalculation model it tt ot uc ratio ub lc in
  CostCalculation.totalOutputTokens a = CostCalculation.totalOutputTokens b
  /\ CostCalculation.inputCost a = CostCalculation.inputCost b
  /\ CostCalculation.outputCost a = CostCalculation.outputCost b
  /\ CostCalculation.baseCost a = CostCalculation.baseCost b
  /\ CostCalculation.cacheDiscount a = CostCalculation.cacheDiscount b
  /\ CostCalculation.batchDiscount a = CostCalculation.batchDiscount b
  /\ CostCalculation.longContextPremium a = CostCalculation.longContextPremium b
  /\ CostCalculation.finalCost a = CostCalculation.finalCost b.
Proof.
  intros a b. subst a b.
  assert (Ht : CostCalculation.totalOutputTokens (costCalculation model it ot tt uc ratio ub lc)
               = CostCalculation.totalOutputTokens (costCalculation model it tt ot uc ratio ub lc)).
  { rewrite !totalOutputTokens_eq. apply add_comm. }
  assert (Hi : CostCalculation.inputCost (costCalculation model it ot tt uc ratio ub lc)
               = CostCalculation.inputCost (costCalculation model it tt ot uc ratio ub lc)).
  { rewrite !inputCost_eq. reflexivity. }
  assert (Ho : CostCalculation.outputCost (costCalculation model it ot tt uc ratio ub lc)
               = CostCalculation.outputCost (costCalculation model it tt ot uc ratio ub lc)).
  { rewrite !outputCost_eq, (add_comm ot tt). reflexivity. }
  assert (Hb : CostCalculation.batchDiscount (costCalculation model it ot tt uc ratio ub lc)
               = CostCalculation.batchDiscount (costCalculation model it tt ot uc ratio ub lc)).
  { rewrite !batchDiscount_eq, Hi, Ho. reflexivity. }
  split; [exact Ht | ].
  split; [exact Hi | ].
  split; [exact Ho | ].
  split; [rewrite !baseCost_eq, Hi, Ho, Hb; reflexivity | ].
  split; [rewrite !cacheDiscount_eq, Hi; reflexivity | ].
  split; [exact Hb | ].
  split; [rewrite !longContextPremium_eq; reflexivity | ].
  rewrite !finalCost_eq, Hi, Ho. reflexivity.
Qed.

(** X2. A key that names no catalogue model (and is not a member of
    [Object.prototype]) is answered with the not-found message that quotes
    the key, in either format, by the calculator and, unless the key is
    [all], by the model info and the pricing lookup. *)
Theorem unknown_model_is_reported (rt : Runtime) (key : string) :
  get CLAUDE_MODELS key = None ->
  ~ In key Object_prototype_keys ->
  (forall it ot tt uc ratio ub lc format,
     costResult key it ot tt uc ratio ub lc = None
     /\ calculateCost key it ot tt uc ratio ub lc format
        = ("Error: Model '" ++ key ++ "' not found.")%string)
  /\ (key <> "all"%string ->
      (forall format,
         getModelInfo key format
         = ("Error: Model '" ++ key
            ++ "' not found. Available: opus_4_5, sonnet_4_5, haiku_4_5")%string)
      /\ (forall includeDiscounts format,
            getPricing key includeDiscounts format
            = ("Error: Model '" ++ key ++ "' not found.")%string)).
Proof.
  intros Hk _. split.
  - intros it ot tt uc ratio ub lc format.
    unfold calculateCost, costResult. rewrite Hk. split; reflexivity.
  - intros Hall.
    assert (E : String.eqb key "all" = false) by (apply String.eqb_neq; exact Hall).
    split.
    + intros format. unfold getModelInfo. rewrite E, Hk. reflexivity.
    + intros includeDiscounts format. unfold getPricing, selectModels.
      rewrite E, Hk. reflexivity.
Qed.

Lemma unknown_model_is_reported_witness :
  getModelInfo (rt := blankRuntime) "gpt_4" json
  = "Error: Model 'gpt_4' not found. Available: opus_4_5, sonnet_4_5, haiku_4_5"%string.
Proof.
  assert (Hk : get CLAUDE_MODELS "gpt_4" = None) by reflexivity.
  assert (Hp : ~ In "gpt_4"%string Object_prototype_keys).
  { cbn [Object_prototype_keys In]. intros H.
    repeat (destruct H as [H | H]; [discriminate H | ]). exact H. }
  destruct (unknown_model_is_reported blankRuntime "gpt_4" Hk Hp) as [_ H].
  destruct (H ltac:(discriminate)) as [Hinfo _].
  exact (Hinfo json).
Defined.

Lemma mul_zero_r_nonneg (x : number) :
  Num.finite x = true -> Num.nonneg x = true -> Num.mul x Num.zero = Num.zero.
Proof. intros Hf Hn. rewrite mul_comm. apply zero_mul_finite_nonneg; assumption. Qed.

Lemma posfin_finite_nonneg (x : number) :
  posfin x = true -> Num.finite x = true /\ Num.nonneg x = true.
Proof.
  destruct x as [ s | s | | [ | ] m e ]; intros H; try discriminate.
  split; reflexivity.
Qed.

Lemma premium_rate_finite_nonneg (key : string) (model : ClaudeModel.t) (lc : bool) :
  get CLAUDE_MODELS key = Some model ->
  let rate := (selectedInputPrice model lc
               - ModelPricing.input (ClaudeModel.pricing model))%js in
  Num.finite rate = true /\ Num.nonneg rate = true.
Proof.
  intros Hk.
  destruct (known_model key model Hk) as [[_ ->] | [[_ ->] | [_ ->]]];
    destruct lc; split; vm_compute; reflexivity.
Qed.

(** X3. A request without any token costs nothing: for every catalogue
    model, every combination of flags and every hit ratio in [0, 1], zero
    input, output and thinking tokens give a result whose seven amounts
    are all 0. *)
Theorem no_tokens_cost_nothing (key : string) (model : ClaudeModel.t)
    (uc : bool) (ratio : number) (ub lc : bool) :
  get CLAUDE_MODELS key = Some model ->
  hit_ratio ratio = true ->
  let r := costCalculation model Num.zero Num.zero Num.zero uc ratio ub lc in
  CostCalculation.inputCost r = Num.zero
  /\ CostCalculation.outputCost r = Num.zero
  /\ CostCalculation.baseCost r = Num.zero
  /\ CostCalculation.cacheDiscount r = Num.zero
  /\ CostCalculation.batchDiscount r = Num.zero
  /\ CostCalculation.longContextPremium r = Num.zero
  /\ CostCalculation.finalCost r = Num.zero.
Proof.
  intros Hk Hr r. subst r.
  destruct (selected_prices_posfin key model lc Hk) as [Hpi Hpo].
  destruct (posfin_finite_nonneg _ Hpi) as [Hpif Hpin].
  destruct (posfin_finite_nonneg _ Hpo) as [Hpof Hpon].
  destruct (hit_ratio_elim ratio Hr) as (Hrv & Hrn & Hrle & Hrf).
  destruct (one_sub_ratio ratio Hrv Hrn Hrle) as [Hsn Hsf].
  assert (Hdiv : (Num.zero / Num.of_Z 1000000)%js = Num.zero) by reflexivity.
  assert (Hadd : (Num.zero + Num.zero)%js = Num.zero) by reflexivity.
  assert (Hsub : (Num.zero - Num.zero)%js = Num.zero) by reflexivity.
  assert (Hread : (Num.zero * PRICING_MULTIPLIERS.cacheRead)%js = Num.zero)
    by (vm_compute; reflexivity).
  assert (Hwrite : (Num.zero * PRICING_MULTIPLIERS.cacheWrite5min)%js = Num.zero)
    by (vm_compute; reflexivity).
  assert (Hhalf : (Num.zero * Num.dec 5 1)%js = Num.zero) by (vm_compute; reflexivity).
  assert (Hin : CostCalculation.inputCost
                  (costCalculation model Num.zero Num.zero Num.zero uc ratio ub lc)
                = Num.zero).
  { rewrite inputCost_eq. destruct uc.
    - rewrite (zero_mul_finite_nonneg ratio Hrf Hrn).
      rewrite (zero_mul_finite_nonneg _ Hsf Hsn).
      rewrite Hdiv, (zero_mul_finite_nonneg _ Hpif Hpin), Hread, Hwrite. exact Hadd.
    - rewrite Hdiv. apply zero_mul_finite_nonneg; assumption. }
  assert (Hout : CostCalculation.outputCost
                   (costCalculation model Num.zero Num.zero Num.zero uc ratio ub lc)
                 = Num.zero).
  { rewrite outputCost_eq, Hadd, Hdiv. apply zero_mul_finite_nonneg; assumption. }
  assert (Hbatch : CostCalculation.batchDiscount
                     (costCalculation model Num.zero Num.zero Num.zero uc ratio ub lc)
                   = Num.zero).
  { rewrite batchDiscount_eq, Hin, Hout, Hadd, Hhalf. destruct ub; reflexivity. }
  split; [exact Hin | ].
  split; [exact Hout | ].
  split; [rewrite baseCost_eq, Hin, Hout, Hbatch; reflexivity | ].
  split.
  { rewrite cacheDiscount_eq, Hin, Hdiv, (zero_mul_finite_nonneg _ Hpif Hpin).
    destruct uc; reflexivity. }
  split; [exact Hbatch | ].
  split.
  { rewrite longContextPremium_eq, Hdiv. destruct lc; [ | reflexivity].
    destruct (premium_rate_finite_nonneg key model true Hk) as [Hf Hn].
    apply mul_zero_r_nonneg; assumption. }
  rewrite finalCost_eq, Hin, Hout, Hadd, Hhalf. destruct ub; reflexivity.
Qed.

Lemma no_tokens_cost_nothing_witness :
  CostCalculation.finalCost
    (costCalculation sonnet_4_5 Num.zero Num.zero Num.zero
       true (Num.dec 9 1) true true) = Num.zero.
Proof.
  assert (Hr : hit_ratio (Num.dec 9 1) = true) by (vm_compute; reflexivity).
  destruct (no_tokens_cost_nothing "sonnet_4_5" sonnet_4_5 true (Num.dec 9 1) true true
              eq_refl Hr) as (_ & _ & _ & _ & _ & _ & H).
  exact H.
Defined.


(** ** Substrings *)

Lemma prefix_spec (sub s : string) :
  String.prefix sub s = true <-> exists after, s = (sub ++ after)%string.
Proof.
  revert s. induction sub as [ | c sub IH]; intros s.
  - split; [intros _; exists s; reflexivity | ].
    intros _. destruct s; reflexivity.
  - destruct s as [ | d s]; cbn [String.prefix].
    + split; [discriminate | intros [after H]; discriminate H].
    + destruct (ascii_dec c d) as [-> | Hne].
      * rewrite IH. split; intros [after H]; exists after.
        -- cbn [String.append]. rewrite H. reflexivity.
        -- cbn [String.append] in H. injection H as H. exact H.
      * split; [discriminate | ].
        intros [after H]. cbn [String.append] in H. injection H as H1 H2.
        congruence.
Qed.

Lemma includes_spec (s sub : string) :
  includes s sub = true <-> substring_of sub s.
Proof.
  unfold substring_of. induction s as [ | c s IH]; cbn [includes].
  - destruct (String.prefix sub EmptyString) eqn:E.
    + split; [intros _ | reflexivity].
      apply prefix_spec in E. destruct E as [after E].
      exists EmptyString, after. exact E.
    + split; [discriminate | ].
      intros (before & after & H).
      destruct before as [ | b before]; [ | discriminate H].
      cbn [String.append] in H.
      assert (String.prefix sub EmptyString = true)
        by (apply prefix_spec; exists after; exact H).
      congruence.
  - destruct (String.prefix sub (String c s)) eqn:E.
    + split; [intros _ | reflexivity].
      apply prefix_spec in E. destruct E as [after E].
      exists EmptyString, after. exact E.
    + rewrite IH. split.
      * intros (before & after & H). exists (String c before), after.
        cbn [String.append]. rewrite H. reflexivity.
      * intros (before & after & H).
        destruct before as [ | b before].
        -- cbn [String.append] in H.
           assert (String.prefix sub (String c s) = true)
             by (apply prefix_spec; exists after; exact H).
           congruence.
        -- cbn [String.append] in H. injection H as _ H.
           exists before, after. exact H.
Qed.

(** ** Lower case *)







Section SearchGroups.
Context {rt : Runtime}.

Lemma In_push (A : Type) (c : bool) (l : list A) (x r : A) :
  In r (if c then l ++ [x] else l) <-> In r l \/ (c = true /\ r = x).
Proof.
  destruct c.
  - rewrite in_app_iff. cbn [In]. intuition congruence.
  - intuition discriminate.
Qed.


Lemma modelResults_section (lowerQuery : string) (r : SearchResult.t) :
  In r (modelResults lowerQuery) -> SearchResult.section r = "Models"%string.
Proof.
  unfold modelResults. rewrite in_flat_map. intros ([key model] & _ & H).
  destruct (modelMatches lowerQuery model); [ | contradiction].
  destruct H as [<- | []]. reflexivity.
Qed.


Lemma searchMatches_unfold (lowerQuery : string) :
  searchMatches lowerQuery
  = (let thinking :=
       {| SearchResult.section := "Extended Thinking";
          SearchResult.content := getThinkingConfig true true markdown;
          SearchResult.relevance := Num.dec 9 1 |} in
     let pricing :=
       {| SearchResult.section := "Pricing";
          SearchResult.content := getPricing "all" true markdown;
          SearchResult.relevance := Num.dec 9 1 |} in
     let beta :=
       {| SearchResult.section := "Beta Headers";
          SearchResult.content := getBetaHeaders markdown;
          SearchResult.relevance := Num.dec 8 1 |} in
     let results := modelResults lowerQuery in
     let results :=
       if includes lowerQuery "think" || includes lowerQuery "budget"
          || includes lowerQuery "reasoning"
       then results ++ [thinking] else results in
     let results :=
       if includes lowerQuery "price" || includes lowerQuery "cost"
          || includes lowerQuery "token" || includes lowerQuery "$"
       then results ++ [pricing] else results in
     if includes lowerQuery "beta" || includes lowerQuery "header"
        || includes lowerQuery "interleaved" || includes lowerQuery "1m"
        || includes lowerQuery "context"
     then results ++ [beta] else results).
Proof. reflexivity. Qed.

End SearchGroups.


Lemma searchResults_In (rt : Runtime) (query : string) (r : SearchResult.t) :
  In r (searchResults query) <-> In r (searchMatches (toLowerCase query)).
Proof.
  unfold searchResults. split; apply Permutation_in.
  - apply Permutation_sym. apply Array_sort_perm.
  - apply Array_sort_perm.
Qed.

(** X6. A topic section is among the results exactly when the
    lower-cased query contains one of the keywords of its group as a
    substring: [think], [budget] or [reasoning] for Extended Thinking;
    [price], [cost], [token] or [$] for Pricing; [beta], [header],
    [interleaved], [1m] or [context] for Beta Headers. *)
Theorem topic_sections_follow_keywords (rt : Runtime) (query : string) :
  let q := toLowerCase query in
  let listed (name : string) :=
    exists r, In r (searchResults query) /\ SearchResult.section r = name in
  (listed "Extended Thinking"%string
   <-> substring_of "think" q \/ substring_of "budget" q \/ substring_of "reasoning" q)
  /\ (listed "Pricing"%string
      <-> substring_of "price" q \/ substring_of "cost" q
          \/ substring_of "token" q \/ substring_of "$" q)
  /\ (listed "Beta Headers"%string
      <-> substring_of "beta" q \/ substring_of "header" q
          \/ substring_of "interleaved" q \/ substring_of "1m" q
          \/ substring_of "context" q).
Proof.
  intros q listed. subst listed. cbv beta.
  rewrite <- !includes_spec.
  split; [ | split].
  - split.
    + intros (r & Hin & Hsec). apply searchResults_In in Hin. fold q in Hin.
      rewrite searchMatches_unfold in Hin. cbv zeta in Hin.
      rewrite !In_push in Hin.
      destruct Hin as [[[Hm | [Hc ->]] | [Hc ->]] | [Hc ->]].
      * apply modelResults_section in Hm. rewrite Hm in Hsec. discriminate Hsec.
      * rewrite !orb_true_iff in Hc. tauto.
      * discriminate Hsec.
      * discriminate Hsec.
    + intros Hk.
      eexists. split.
      * apply searchResults_In. fold q.
        rewrite searchMatches_unfold. cbv zeta. rewrite !In_push.
        left. left. right. split; [ | reflexivity].
        rewrite !orb_true_iff. tauto.
      * reflexivity.
  - split.
    + intros (r & Hin & Hsec). apply searchResults_In in Hin. fold q in Hin.
      rewrite searchMatches_unfold in Hin. cbv zeta in Hin.
      rewrite !In_push in Hin.
      destruct Hin as [[[Hm | [Hc ->]] | [Hc ->]] | [Hc ->]].
      * apply modelResults_section in Hm. rewrite Hm in Hsec. discriminate Hsec.
      * discriminate Hsec.
      * rewrite !orb_true_iff in Hc. tauto.
      * discriminate Hsec.
    + intros Hk.
      eexists. split.
      * apply searchResults_In. fold q.
        rewrite searchMatches_unfold. cbv zeta. rewrite !In_push.
        left. right. split; [ | reflexivity].
        rewrite !orb_true_iff. tauto.
      * reflexivity.
  - split.
    + intros (r & Hin & Hsec). apply searchResults_In in Hin. fold q in Hin.
      rewrite searchMatches_unfold in Hin. cbv zeta in Hin.
      rewrite !In_push in Hin.
      destruct Hin as [[[Hm | [Hc ->]] | [Hc ->]] | [Hc ->]].
      * apply modelResults_section in Hm. rewrite Hm in Hsec. discriminate Hsec.
      * discriminate Hsec.
      * discriminate Hsec.
      * rewrite !orb_true_iff in Hc. tauto.
    + intros Hk.
      eexists. split.
      * apply searchResults_In. fold q.
        rewrite searchMatches_unfold. cbv zeta. rewrite !In_push.
        right. split; [ | reflexivity].
        rewrite !orb_true_iff. tauto.
      * reflexivity.
Qed.


Lemma header_is_not_no_results (rt : Runtime) (query : string)
    (results : list SearchResult.t) (rest : string) :
  (searchHeader query results ++ rest)%string <> noResultsMarkdown query.
Proof.
  unfold searchHeader, noResultsMarkdown. cbn [String.append].
  intros H. discriminate H.
Qed.

(** X4. The no-results message is the answer exactly when no group
    matches the lower-cased query; then the JSON answer is the message
    object with an empty result array. *)
Theorem no_results_iff_no_match (rt : Runtime) (query : string) :
  (searchMatches (toLowerCase query) = []
   <-> searchDocs query markdown = noResultsMarkdown query)
  /\ (searchMatches (toLowerCase query) = [] ->
      searchDocs query json = JSON_stringify (noResultsJSON query)).
Proof.
  assert (Hlen := Array_sort_length _ byRelevance (searchMatches (toLowerCase query))).
  fold (searchResults query) in Hlen.
  split; [split | ].
  - intros He. rewrite He in Hlen.
    apply (searchDocs_empty query).
    destruct (searchResults query); [reflexivity | discriminate Hlen].
  - intros Hmd.
    destruct (searchMatches (toLowerCase query)) as [ | m ms]; [reflexivity | ].
    exfalso.
    assert (Hne : searchResults query <> []).
    { intros E. rewrite E in Hlen. discriminate Hlen. }
    destruct (searchDocs_nonempty query Hne) as [Hmd' _].
    rewrite Hmd' in Hmd. exact (header_is_not_no_results rt query _ _ Hmd).
  - intros He. rewrite He in Hlen.
    apply (searchDocs_empty query).
    destruct (searchResults query); [reflexivity | discriminate Hlen].
Qed.


Lemma string_app_assoc (a b c : string) :
  ((a ++ b) ++ c)%string = (a ++ (b ++ c))%string.
Proof.
  induction a as [ | x a IH]; cbn [String.append]; [reflexivity | ].
  rewrite IH. reflexivity.
Qed.


(** X8. The markdown answer for [all] is the answers for the catalogue
    keys, in catalogue order, joined by a horizontal rule. *)
Theorem model_info_all_joins_every_model (rt : Runtime) :
  getModelInfo "all" markdown
  = join (nl ++ nl ++ "---" ++ nl ++ nl)%string
         (map (fun key => getModelInfo key markdown)
              (map fst (Object_entries CLAUDE_MODELS))).
Proof. reflexivity. Qed.



Lemma z_enum_In (values : list string) (x : string) :
  z_enum values x = true <-> In x values.
Proof.
  unfold z_enum. rewrite existsb_exists. split.
  - intros (v & Hv & E). apply String.eqb_eq in E. subst v. exact Hv.
  - intros Hx. exists x. split; [exact Hx | apply String.eqb_refl].
Qed.

Lemma catalogue_keys (key : string) :
  get CLAUDE_MODELS key <> None
  <-> key = "opus_4_5"%string \/ key = "sonnet_4_5"%string \/ key = "haiku_4_5"%string.
Proof.
  split.
  - intros H. destruct (get CLAUDE_MODELS key) as [model | ] eqn:E; [ | congruence].
    destruct (known_model key model E) as [[-> _] | [[-> _] | [-> _]]]; auto.
  - intros [-> | [-> | ->]]; discriminate.
Qed.

(** X10. The request schemas and the catalogue agree: the calculator's
    [model] enumeration is exactly the set of catalogue keys, and the
    enumerations of the three lookups are the catalogue keys and [all].
    So a validated request never reaches a not-found branch: the
    calculator has a result to render and the lookups select at least one
    model. *)
Theorem schema_models_are_the_catalogue (rt : Runtime) (key : string) :
  (z_enum CalculateCostSchema_model key = true <-> get CLAUDE_MODELS key <> None)
  /\ (z_enum GetModelInfoSchema_model key = true
      <-> key = "all"%string \/ get CLAUDE_MODELS key <> None)
  /\ (z_enum GetPricingSchema_model key = true
      <-> key = "all"%string \/ get CLAUDE_MODELS key <> None)
  /\ (z_enum GetTokenLimitsSchema_model key = true
      <-> key = "all"%string \/ get CLAUDE_MODELS key <> None)
  /\ (z_enum CalculateCostSchema_model key = true ->
      forall it ot tt uc ratio ub lc format,
      exists r, costResult key it ot tt uc ratio ub lc = Some r
                /\ calculateCost key it ot tt uc ratio ub lc format
                   = renderCost r format)
  /\ (z_enum GetPricingSchema_model key = true -> selectModels key <> []).
Proof.
  rewrite !z_enum_In, catalogue_keys.
  unfold CalculateCostSchema_model, GetModelInfoSchema_model,
    GetPricingSchema_model, GetTokenLimitsSchema_model. cbn [In].
  split; [intuition congruence | ].
  split; [intuition congruence | ].
  split; [intuition congruence | ].
  split; [intuition congruence | ].
  split.
  - intros H it ot tt uc ratio ub lc format.
    unfold calculateCost, costResult.
    destruct H as [<- | [<- | [<- | []]]]; eexists; split; reflexivity.
  - intros H. unfold selectModels.
    destruct H as [<- | [<- | [<- | [<- | []]]]]; discriminate.
Qed.

Lemma schema_models_are_the_catalogue_witness :
  exists r,
    costResult "haiku_4_5" (Num.of_Z 10) (Num.of_Z 20) Num.zero
      false (Num.dec 9 1) false false = Some r
    /\ calculateCost (rt := blankRuntime) "haiku_4_5" (Num.of_Z 10) (Num.of_Z 20)
         Num.zero false (Num.dec 9 1) false false json
       = renderCost (rt := blankRuntime) r json.
Proof.
  destruct (schema_models_are_the_catalogue blankRuntime "haiku_4_5")
    as (_ & _ & _ & _ & H & _).
  exact (H eq_refl (Num.of_Z 10) (Num.of_Z 20) Num.zero false (Num.dec 9 1)
           false false json).
Defined.

Lemma practicesOf_known (topic : string) :
  practicesOf topic <> None
  <-> topic = "thinking"%string \/ topic = "model_selection"%string
      \/ topic = "cost_optimization"%string \/ topic = "context_management"%string.
Proof.
  unfold practicesOf, topicMap. cbn [get].
  destruct (String.eqb_spec "thinking" topic) as [<- | N1].
  { split; [auto | discriminate]. }
  destruct (String.eqb_spec "model_selection" topic) as [<- | N2].
  { split; [auto | discriminate]. }
  destruct (String.eqb_spec "cost_optimization" topic) as [<- | N3].
  { split; [auto | discriminate]. }
  destruct (String.eqb_spec "context_management" topic) as [<- | N4].
  { split; [auto | discriminate]. }
  split; [congruence | ].
  intros [-> | [-> | [-> | ->]]]; congruence.
Qed.

(** X11. The markdown rendering of the best practices fails (a
    [TypeError] on [practices.forEach]) exactly for the topics outside the
    schema's enumeration; the JSON rendering never fails and answers such
    a topic with an empty object, not with an error. *)
Theorem best_practices_unknown_topic (rt : Runtime) (topic : string) :
  (getBestPractices topic markdown <> None
   <-> z_enum GetBestPracticesSchema_topic topic = true)
  /\ getBestPractices topic json <> None
  /\ (z_enum GetBestPracticesSchema_topic topic = false ->
      getBestPractices topic json = Some (JSON_stringify_pretty (JObject []))).
Proof.
  assert (Hknown := practicesOf_known topic).
  rewrite z_enum_In. unfold GetBestPracticesSchema_topic. cbn [In].
  split; [ | split].
  - unfold getBestPractices.
    destruct (String.eqb_spec topic "all") as [-> | Hall].
    + split; [auto 6 | intros _; discriminate].
    + cbn [fold_left].
      destruct (practicesOf topic) as [practices | ]; cbv iota.
      * split; [ | intros _; discriminate].
        intros _. assert (H : Some practices <> None) by discriminate.
        apply Hknown in H. intuition.
      * split; [intros H; exfalso; apply H; reflexivity | ].
        intros H. exfalso.
        assert (H' : @None (list string) <> None); [ | apply H'; reflexivity].
        apply Hknown. intuition congruence.
  - unfold getBestPractices. destruct (String.eqb topic "all"); discriminate.
  - intros Hout. unfold getBestPractices.
    assert (Hin : ~ In topic GetBestPracticesSchema_topic).
    { intros Hin. apply z_enum_In in Hin.
      unfold GetBestPracticesSchema_topic in Hin. congruence. }
    unfold GetBestPracticesSchema_topic in Hin. cbn [In] in Hin.
    destruct (String.eqb_spec topic "all") as [-> | Hall]; [tauto | ].
    destruct (practicesOf topic) as [practices | ]; [ | reflexivity].
    exfalso. assert (H : Some practices <> None) by discriminate.
    apply Hknown in H. intuition.
Qed.

Lemma best_practices_unknown_topic_witness :
  getBestPractices (rt := blankRuntime) "security" json
  = Some (JSON_stringify_pretty (Runtime := blankRuntime) (JObject [])).
Proof.
  destruct (best_practices_unknown_topic blankRuntime "security") as (_ & _ & H).
  exact (H eq_refl).
Defined.

(** X12. The markdown answer for [all] is the title followed by the
    sections that the four single topics give, in the order of
    [topicMap]. *)
Theorem best_practices_all_concatenates (rt : Runtime) :
  exists (title : string) (body : string -> string),
    (forall topic, In topic (map fst topicMap) ->
       getBestPractices topic markdown = Some (title ++ body topic)%string)
    /\ getBestPractices "all" markdown
       = Some (title ++ body "thinking" ++ body "model_selection"
               ++ body "cost_optimization" ++ body "context_management")%string.
Proof.
  exists ("# Best Practices" ++ nl ++ nl)%string.
  exists (fun topic =>
            match practicesOf topic with
            | Some practices => practicesSection topic practices
            | None => EmptyString
            end).
  split.
  - intros topic Hin. cbn [map fst topicMap In] in Hin.
    destruct Hin as [<- | [<- | [<- | [<- | []]]]]; reflexivity.
  - unfold getBestPractices.
    change (String.eqb "all" "all") with true. cbv iota.
    unfold Object_entries, topicMap. cbn [map fst fold_left].
    change (practicesOf "thinking") with (get BEST_PRACTICES "thinkingBudget").
    change (practicesOf "model_selection") with (get BEST_PRACTICES "modelSelection").
    change (practicesOf "cost_optimization") with (get BEST_PRACTICES "costOptimization").
    change (practicesOf "context_management") with (get BEST_PRACTICES "contextManagement").
    unfold BEST_PRACTICES. cbn [get String.eqb Ascii.eqb Bool.eqb].
    repeat rewrite string_app_assoc. reflexivity.
Qed.


(** X15. The section of a result fixes its content and its relevance:
    a topic result carries the whole rendered topic (the thinking
    configuration with rules and API modes, the pricing table of all
    models with discounts, the beta headers) at relevance 0.9, 0.9 and
    0.8; a model result carries the model's markdown description, at
    relevance 1 when the query occurs in the model's name and 0.7
    otherwise. *)
Theorem result_content_by_section (rt : Runtime) (query : string)
    (r : SearchResult.t) :
  In r (searchResults query) ->
  (SearchResult.section r = "Extended Thinking"%string
   /\ SearchResult.content r = getThinkingConfig true true markdown
   /\ SearchResult.relevance r = Num.dec 9 1)
  \/ (SearchResult.section r = "Pricing"%string
      /\ SearchResult.content r = getPricing "all" true markdown
      /\ SearchResult.relevance r = Num.dec 9 1)
  \/ (SearchResult.section r = "Beta Headers"%string
      /\ SearchResult.content r = getBetaHeaders markdown
      /\ SearchResult.relevance r = Num.dec 8 1)
  \/ (SearchResult.section r = "Models"%string
      /\ exists key model,
           get CLAUDE_MODELS key = Some model
           /\ modelMatches (toLowerCase query) model = true
           /\ SearchResult.content r = getModelInfo key markdown
           /\ SearchResult.relevance r
              = if includes (toLowerCase (ClaudeModel.name model)) (toLowerCase query)
                then Num.of_Z 1 else Num.dec 7 1).
Proof.
  intros Hin. apply searchResults_In in Hin.
  rewrite searchMatches_unfold in Hin. cbv zeta in Hin.
  rewrite !In_push in Hin.
  destruct Hin as [[[Hm | [_ ->]] | [_ ->]] | [_ ->]].
  - right. right. right.
    unfold modelResults in Hm. rewrite in_flat_map in Hm.
    destruct Hm as ([key model] & Hentry & Hr).
    destruct (modelMatches (toLowerCase query) model) eqn:Hmatch; [ | contradiction].
    destruct Hr as [<- | []]. split; [reflexivity | ].
    exists key, model.
    assert (Hk : get CLAUDE_MODELS key = Some model
                 /\ formatModelMarkdown model = getModelInfo key markdown).
    { unfold Object_entries, CLAUDE_MODELS in Hentry. cbn [In] in Hentry.
      destruct Hentry as [E | [E | [E | []]]]; injection E as <- <-;
        split; reflexivity. }
    destruct Hk as [Hk Hfmt].
    split; [exact Hk | ]. split; [exact Hmatch | ].
    split; [exact Hfmt | reflexivity].
  - left. repeat split.
  - right. left. repeat split.
  - right. right. left. repeat split.
Qed.

Lemma result_content_by_section_witness :
  exists r,
    In r (searchResults (rt := blankRuntime) "budget")
    /\ SearchResult.section r = "Extended Thinking"%string.
Proof.
  exists {| SearchResult.section := "Extended Thinking";
            SearchResult.content := getThinkingConfig (rt := blankRuntime) true true markdown;
            SearchResult.relevance := Num.dec 9 1 |}.
  assert (Hin : In {| SearchResult.section := "Extended Thinking";
                      SearchResult.content :=
                        getThinkingConfig (rt := blankRuntime) true true markdown;
                      SearchResult.relevance := Num.dec 9 1 |}
                   (searchResults (rt := blankRuntime) "budget")).
  { apply searchResults_In. left. reflexivity. }
  split; [exact Hin | ].
  destruct (result_content_by_section blankRuntime "budget" _ Hin)
    as [[H _] | [[H _] | [[H _] | [H _]]]]; try discriminate H.
  exact H.
Defined.




(** ** Magnitudes *)

Lemma below_mono (a b : Z) (x : number) :
  a <= b -> below a x = true -> below b x = true.
Proof.
  intros Hab. destruct x as [ s | s | | s m e ]; cbn [below]; try tauto.
  rewrite !Z.leb_le. lia.
Qed.

Lemma below_finite (k : Z) (x : number) : below k x = true -> Num.finite x = true.
Proof. destruct x; cbn [below Num.finite]; congruence. Qed.

Lemma binary_round_aux_below (s : bool) (m e k : Z) (l : location) :
  0 <= m -> Zdigits2 m + e <= k -> -1074 <= k <= 1023 -> e <= 971 ->
  below (k + 1) (binary_round_aux Num.prec Num.emax s m e l) = true.
Proof.
  intros Hm Hd Hk He.
  destruct (binary_round_aux_spec s m e l Hm)
    as (m1 & r & m2 & e1 & e2 & Hm1 & He1 & Hr & Hm2 & He2 & Hm1pos & Hrpos & Hm2pos & ->).
  cbv zeta in *. rewrite fexp64_eq in *.
  assert (Hd0 := Zdigits2_nonneg m).
  assert (D1 : Zdigits2 m1 <= Z.max 0 (Zdigits2 m - Z.max 0 (Z.max (Zdigits2 m + e - 53) (-1074) - e))).
  { rewrite Hm1. apply Zdigits2_div_pow2; lia. }
  assert (Dr : Zdigits2 r <= Zdigits2 m1 + 1).
  { destruct Hr as [-> | ->]; [lia | apply Zdigits2_succ; assumption]. }
  assert (D2 : Zdigits2 m2 <= Z.max 0 (Zdigits2 r - Z.max 0 (Z.max (Zdigits2 r + e1 - 53) (-1074) - e1))).
  { rewrite Hm2. apply Zdigits2_div_pow2; lia. }
  destruct m2 as [ | p | p ]; [reflexivity | | lia].
  replace (Z.leb e2 971) with true by (symmetry; apply Z.leb_le; lia).
  cbn [below]. apply Z.leb_le. lia.
Qed.

Lemma binary_round_below (s : bool) (m : positive) (e k : Z) :
  Zdigits2 (Zpos m) + e <= k -> -1074 <= k <= 1023 -> e <= 971 ->
  below (k + 1) (binary_round Num.prec Num.emax s m e) = true.
Proof.
  intros Hd Hk He. unfold binary_round.
  destruct (shl_align_spec m e (fexp Num.prec Num.emax (Zpos (digits2_pos m) + e)))
    as [Hsnd Hfst].
  destruct (shl_align m e _) as [mz ez]. cbn [fst snd] in Hsnd, Hfst.
  apply binary_round_aux_below; [lia | | lia | lia].
  rewrite Hfst, Zdigits2_mul_pow2 by lia. lia.
Qed.

Lemma mul_below (a b : Z) (x y : number) :
  below a x = true -> below b y = true ->
  -1074 <= a + b <= 973 ->
  below (a + b + 1) (Num.mul x y) = true.
Proof.
  intros Hx Hy Hab.
  destruct x as [ sx | sx | | sx mx ex ]; try discriminate;
  destruct y as [ sy | sy | | sy my ey ]; try discriminate; try reflexivity.
  cbn [below] in Hx, Hy. apply Z.leb_le in Hx, Hy.
  unfold Num.mul, SFmul.
  assert (Hdx := Zdigits2_bounds (Zpos mx) ltac:(lia)).
  assert (Hdy := Zdigits2_bounds (Zpos my) ltac:(lia)).
  assert (Hpx : 0 < Zdigits2 (Zpos mx)) by (cbn; lia).
  assert (Hpy : 0 < Zdigits2 (Zpos my)) by (cbn; lia).
  assert (Hprod : Zdigits2 (Zpos (mx * my)) <= Zdigits2 (Zpos mx) + Zdigits2 (Zpos my)).
  { apply Zdigits2_le_of_lt_pow2; [lia | lia | ].
    rewrite Z.pow_add_r by lia. rewrite Pos2Z.inj_mul.
    apply Z.mul_lt_mono_nonneg; lia. }
  apply binary_round_aux_below; lia.
Qed.

Lemma div_million_below (a : Z) (x : number) :
  below a x = true -> -1055 <= a <= 1023 ->
  below (a - 18) (Num.div x (Num.of_Z 1000000)) = true.
Proof.
  intros Hx Ha. rewrite million_eq.
  destruct x as [ sx | sx | | sx mx ex ]; try discriminate; [reflexivity | ].
  cbn [below] in Hx. apply Z.leb_le in Hx.
  unfold Num.div, SFdiv.
  assert (Hspec := SFdiv_core_binary_spec mx 8589934592000000 ex (-33)).
  destruct (SFdiv_core_binary _ _ _ _ _ _) as [[q e'] l].
  cbv zeta in Hspec. cbn [fst snd] in Hspec.
  change (Zdigits2 (Zpos 8589934592000000)) with 53 in Hspec.
  rewrite fexp64_eq in Hspec.
  destruct Hspec as [Hq He'].
  remember (ex - -33 - Z.min (Z.max (Zdigits2 (Zpos mx) + ex - (53 + -33) - 53) (-1074)) (ex - -33))
    as k eqn:Hk.
  assert (Hs : 0 <= k) by lia.
  assert (Hp : 0 < 2 ^ k) by (apply Z.pow_pos_nonneg; lia).
  assert (Hn : 0 <= Zpos mx * 2 ^ k) by (apply Z.mul_nonneg_nonneg; lia).
  assert (Hq0 : 0 <= q).
  { rewrite Hq. apply Z.div_pos; [assumption | reflexivity]. }
  assert (Hqd : Zdigits2 q <= Z.max 0 (Zdigits2 (Zpos mx) + k - 52)).
  { apply Z.le_trans with (Zdigits2 (Zpos mx * 2 ^ k / 2 ^ 52)).
    - apply Zdigits2_mono. split; [assumption | ].
      rewrite Hq. apply Z.div_le_compat_l; [assumption | ].
      split; [reflexivity | ].
      change (2 ^ 52) with 4503599627370496. apply Pos2Z.pos_le_pos.
      apply Pos.leb_le. reflexivity.
    - eapply Z.le_trans; [apply Zdigits2_div_pow2; lia | ].
      rewrite Zdigits2_mul_pow2 by lia. lia. }
  assert (Hpx : 0 < Zdigits2 (Zpos mx)) by (cbn; lia).
  replace (a - 18) with (a - 19 + 1) by lia.
  apply binary_round_aux_below; lia.
Qed.

Lemma add_below (a : Z) (x y : number) :
  Num.nonneg x = true -> Num.nonneg y = true ->
  below a x = true -> below a y = true ->
  -1074 <= a <= 972 ->
  below (a + 2) (Num.add x y) = true.
Proof.
  intros Hnx Hny Hx Hy Ha.
  destruct x as [ [ | ] | [ | ] | | [ | ] mx ex ]; try discriminate;
  destruct y as [ [ | ] | [ | ] | | [ | ] my ey ]; try discriminate;
    try reflexivity;
    try (apply below_mono with (a := a); [lia | assumption]).
  cbn [below] in Hx, Hy. apply Z.leb_le in Hx, Hy.
  unfold Num.add, SFadd, cond_Zopp.
  destruct (shl_align_spec mx ex (Z.min ex ey)) as [_ H1].
  destruct (shl_align_spec my ey (Z.min ex ey)) as [_ H2].
  replace (Z.min ex (Z.min ex ey)) with (Z.min ex ey) in H1 by lia.
  replace (Z.min ey (Z.min ex ey)) with (Z.min ex ey) in H2 by lia.
  rewrite <- Pos2Z.inj_add. unfold binary_normalize.
  assert (Hpx : 0 < Zdigits2 (Zpos mx)) by (cbn; lia).
  assert (Hpy : 0 < Zdigits2 (Zpos my)) by (cbn; lia).
  replace (a + 2) with (a + 1 + 1) by lia.
  apply binary_round_below; [ | lia | lia].
  rewrite Pos2Z.inj_add, H1, H2.
  set (ez := Z.min ex ey) in *.
  assert (Hbx := Zdigits2_bounds (Zpos mx) ltac:(lia)).
  assert (Hby := Zdigits2_bounds (Zpos my) ltac:(lia)).
  assert (Hez : ez <= ex /\ ez <= ey) by (subst ez; lia).
  assert (Zdigits2 (Zpos mx * 2 ^ (ex - ez) + Zpos my * 2 ^ (ey - ez)) <= a + 1 - ez);
    [ | lia].
  assert (P1 : 0 < 2 ^ (ex - ez)) by (apply Z.pow_pos_nonneg; lia).
  assert (P2 : 0 < 2 ^ (ey - ez)) by (apply Z.pow_pos_nonneg; lia).
  apply Zdigits2_le_of_lt_pow2; [nia | lia | ].
  assert (B1 : Zpos mx * 2 ^ (ex - ez) < 2 ^ (a - ez)).
  { apply Z.lt_le_trans with (2 ^ Zdigits2 (Zpos mx) * 2 ^ (ex - ez)).
    - apply Z.mul_lt_mono_pos_r; lia.
    - rewrite <- Z.pow_add_r by lia. apply Z.pow_le_mono_r; lia. }
  assert (B2 : Zpos my * 2 ^ (ey - ez) < 2 ^ (a - ez)).
  { apply Z.lt_le_trans with (2 ^ Zdigits2 (Zpos my) * 2 ^ (ey - ez)).
    - apply Z.mul_lt_mono_pos_r; lia.
    - rewrite <- Z.pow_add_r by lia. apply Z.pow_le_mono_r; lia. }
  replace (a + 1 - ez) with (a - ez + 1) by lia.
  rewrite Z.pow_add_r, Z.pow_1_r by lia. lia.
Qed.


Lemma sub_below (a : Z) (x y : number) :
  Num.nonneg x = true -> Num.nonneg y = true ->
  below a x = true -> below a y = true ->
  -1074 <= a <= 972 ->
  below (a + 1) (Num.sub x y) = true.
Proof.
  intros Hnx Hny Hx Hy Ha.
  destruct x as [ [ | ] | [ | ] | | [ | ] mx ex ]; try discriminate;
  destruct y as [ [ | ] | [ | ] | | [ | ] my ey ]; try discriminate;
    try reflexivity;
    try (apply below_mono with (a := a); [lia | assumption]).
  cbn [below] in Hx, Hy. apply Z.leb_le in Hx, Hy.
  unfold Num.sub, SFsub, cond_Zopp.
  destruct (shl_align_spec mx ex (Z.min ex ey)) as [_ H1].
  destruct (shl_align_spec my ey (Z.min ex ey)) as [_ H2].
  replace (Z.min ex (Z.min ex ey)) with (Z.min ex ey) in H1 by lia.
  replace (Z.min ey (Z.min ex ey)) with (Z.min ex ey) in H2 by lia.
  rewrite H1, H2.
  set (ez := Z.min ex ey) in *.
  assert (Hpx : 0 < Zdigits2 (Zpos mx)) by (cbn; lia).
  assert (Hpy : 0 < Zdigits2 (Zpos my)) by (cbn; lia).
  assert (Hbx := Zdigits2_bounds (Zpos mx) ltac:(lia)).
  assert (Hby := Zdigits2_bounds (Zpos my) ltac:(lia)).
  assert (Hez : ez <= ex /\ ez <= ey) by (subst ez; lia).
  assert (P1 : 0 < 2 ^ (ex - ez)) by (apply Z.pow_pos_nonneg; lia).
  assert (P2 : 0 < 2 ^ (ey - ez)) by (apply Z.pow_pos_nonneg; lia).
  assert (B1 : Zpos mx * 2 ^ (ex - ez) < 2 ^ (a - ez)).
  { apply Z.lt_le_trans with (2 ^ Zdigits2 (Zpos mx) * 2 ^ (ex - ez)).
    - apply Z.mul_lt_mono_pos_r; lia.
    - rewrite <- Z.pow_add_r by lia. apply Z.pow_le_mono_r; lia. }
  assert (B2 : Zpos my * 2 ^ (ey - ez) < 2 ^ (a - ez)).
  { apply Z.lt_le_trans with (2 ^ Zdigits2 (Zpos my) * 2 ^ (ey - ez)).
    - apply Z.mul_lt_mono_pos_r; lia.
    - rewrite <- Z.pow_add_r by lia. apply Z.pow_le_mono_r; lia. }
  assert (A1 : 0 < Zpos mx * 2 ^ (ex - ez)) by nia.
  assert (A2 : 0 < Zpos my * 2 ^ (ey - ez)) by nia.
  destruct (Zpos mx * 2 ^ (ex - ez) - Zpos my * 2 ^ (ey - ez)) as [ | d | d ] eqn:ED;
    unfold binary_normalize.
  - reflexivity.
  - apply binary_round_below; [ | lia | lia].
    assert (Zdigits2 (Zpos d) <= a - ez); [ | lia].
    apply Zdigits2_le_of_lt_pow2; lia.
  - apply binary_round_below; [ | lia | lia].
    assert (Zdigits2 (Zpos d) <= a - ez); [ | lia].
    apply Zdigits2_le_of_lt_pow2; lia.
Qed.

Lemma safe_count_elim (x : number) :
  safe_count x = true ->
  token_count x = true /\ Num.nonneg x = true /\ below 54 x = true.
Proof.
  unfold safe_count. intros H. apply andb_prop in H. destruct H as [Ht Hle].
  destruct (token_count_elim x Ht) as (Hv & Hf & Hn).
  repeat split; try assumption.
  destruct x as [ s | s | | [ | ] m e ]; try discriminate; [reflexivity | ].
  destruct (valid_finite_bounds _ _ _ Hv) as (Hd & He & _).
  cbn [below]. apply Z.leb_le.
  assert (e <= 1); [ | lia].
  change (Num.of_Z 9007199254740992) with (S754_finite false 4503599627370496 1) in Hle.
  unfold Num.leb, SFleb, SFcompare in Hle.
  destruct (Z.compare_spec e 1) as [E | E | E]; [lia | lia | discriminate].
Qed.

Lemma hit_ratio_below (r : number) :
  hit_ratio r = true -> below 1 r = true.
Proof.
  intros H. destruct (hit_ratio_elim r H) as (Hv & Hn & Hle & Hf).
  destruct r as [ s | s | | [ | ] m e ]; try discriminate; [reflexivity | ].
  destruct (valid_finite_bounds _ _ _ Hv) as (Hd & He & _).
  rewrite one_eq in Hle.
  destruct (leb_one_cases m e Hle) as [E | [E _]]; cbn [below]; apply Z.leb_le; lia.
Qed.

Lemma prices_below (key : string) (model : ClaudeModel.t) (lc : bool) :
  get CLAUDE_MODELS key = Some model ->
  below 5 (selectedInputPrice model lc) = true
  /\ below 5 (selectedOutputPrice model lc) = true
  /\ below 2 (selectedInputPrice model lc
              - ModelPricing.input (ClaudeModel.pricing model))%js = true.
Proof.
  intros Hk.
  destruct (known_model key model Hk) as [[_ ->] | [[_ ->] | [_ ->]]];
    destruct lc; (split; [ | split]); vm_compute; reflexivity.
Qed.

Lemma multipliers_below :
  below 1 PRICING_MULTIPLIERS.cacheRead = true
  /\ below 1 PRICING_MULTIPLIERS.cacheWrite5min = true
  /\ below 1 (Num.dec 5 1) = true
  /\ below 1 Num.one = true.
Proof. repeat split; vm_compute; reflexivity. Qed.


(** For every catalogue model, token counts up to [2 ^ 53] and a hit ratio
    in [0, 1], every amount of the result is finite. *)
Lemma amounts_finite_core (key : string) (model : ClaudeModel.t)
    (it ot tt : number) (uc : bool) (ratio : number) (ub lc : bool) :
  get CLAUDE_MODELS key = Some model ->
  safe_count it = true -> safe_count ot = true -> safe_count tt = true ->
  hit_ratio ratio = true ->
  let r := costCalculation model it ot tt uc ratio ub lc in
  Num.finite (CostCalculation.inputCost r) = true
  /\ Num.finite (CostCalculation.outputCost r) = true
  /\ Num.finite (CostCalculation.baseCost r) = true
  /\ Num.finite (CostCalculation.cacheDiscount r) = true
  /\ Num.finite (CostCalculation.batchDiscount r) = true
  /\ Num.finite (CostCalculation.longContextPremium r) = true
  /\ Num.finite (CostCalculation.finalCost r) = true.
Proof.
  intros Hk Hit Hot Htt Hr r. subst r.
  destruct (safe_count_elim it Hit) as (Hitc & Hitn & Hitb).
  destruct (safe_count_elim ot Hot) as (Hotc & Hotn & Hotb).
  destruct (safe_count_elim tt Htt) as (Httc & Httn & Httb).
  destruct (hit_ratio_elim ratio Hr) as (Hrv & Hrn & Hrle & Hrf).
  assert (Hrb := hit_ratio_below ratio Hr).
  destruct (one_sub_ratio ratio Hrv Hrn Hrle) as [Hsn _].
  destruct (prices_below key model lc Hk) as (Hpi & Hpo & Hrate).
  destruct (selected_prices_posfin key model lc Hk) as [Hpip Hpop].
  destruct multipliers_below as (Hread & Hwrite & Hhalf & Hone).
  destruct multipliers_posfin as (Hreadp & Hwritep & Hhalfp & Hmillion).
  destruct (breakdown_nonneg key model it ot tt uc ratio ub lc Hk Hitc Hotc Httc Hr)
    as [Hinn Houtn].
  assert (Hsb : below 2 (Num.one - ratio)%js = true).
  { apply (sub_below 1); try assumption; try reflexivity; lia. }
  assert (Hquot : below 36 (it / Num.of_Z 1000000)%js = true).
  { apply (div_million_below 54); [exact Hitb | lia]. }
  assert (Horig : below 42 (it / Num.of_Z 1000000 * selectedInputPrice model lc)%js = true).
  { apply (mul_below 36 5); [exact Hquot | exact Hpi | lia]. }
  assert (Horign : Num.nonneg (it / Num.of_Z 1000000 * selectedInputPrice model lc)%js = true).
  { apply mul_nonneg_posfin; [ | assumption]. apply div_nonneg_posfin; assumption. }
  assert (Hin : below 49 (CostCalculation.inputCost
                            (costCalculation model it ot tt uc ratio ub lc)) = true).
  { rewrite inputCost_eq. destruct uc.
    - apply (add_below 47); [ | | | | lia].
      + apply mul_nonneg_posfin; [ | assumption].
        apply mul_nonneg_posfin; [ | assumption].
        apply div_nonneg_posfin; [ | assumption].
        apply mul_nonneg_finite; try assumption.
        apply (below_finite 54). assumption.
      + apply mul_nonneg_posfin; [ | assumption].
        apply mul_nonneg_posfin; [ | assumption].
        apply div_nonneg_posfin; [ | assumption].
        apply mul_nonneg_finite; try assumption.
        * apply (below_finite 54). assumption.
        * apply (below_finite 2). assumption.
      + apply below_mono with (a := 44 + 1 + 1); [lia | ].
        apply (mul_below 44 1); [ | exact Hread | lia].
        apply (mul_below 38 5); [ | exact Hpi | lia].
        apply (div_million_below 56); [ | lia].
        apply (mul_below 54 1); [exact Hitb | exact Hrb | lia].
      + apply (mul_below 45 1); [ | exact Hwrite | lia].
        apply (mul_below 39 5); [ | exact Hpi | lia].
        apply (div_million_below 57); [ | lia].
        apply (mul_below 54 2); [exact Hitb | exact Hsb | lia].
    - apply below_mono with (a := 42); [lia | exact Horig]. }
  assert (Hout : below 49 (CostCalculation.outputCost
                             (costCalculation model it ot tt uc ratio ub lc)) = true).
  { rewrite outputCost_eq.
    apply below_mono with (a := 38 + 5 + 1); [lia | ].
    apply (mul_below 38 5); [ | exact Hpo | lia].
    apply (div_million_below 56); [ | lia].
    apply (add_below 54); try assumption. lia. }
  assert (Hsum : below 51 (CostCalculation.inputCost
                             (costCalculation model it ot tt uc ratio ub lc)
                           + CostCalculation.outputCost
                               (costCalculation model it ot tt uc ratio ub lc))%js = true).
  { apply (add_below 49); try assumption. lia. }
  assert (Hsumn : Num.nonneg (CostCalculation.inputCost
                                (costCalculation model it ot tt uc ratio ub lc)
                              + CostCalculation.outputCost
                                  (costCalculation model it ot tt uc ratio ub lc))%js = true).
  { apply add_nonneg; assumption. }
  assert (Hhalved : below 53 ((CostCalculation.inputCost
                                 (costCalculation model it ot tt uc ratio ub lc)
                               + CostCalculation.outputCost
                                   (costCalculation model it ot tt uc ratio ub lc))
                              * Num.dec 5 1)%js = true).
  { apply (mul_below 51 1); [assumption | assumption | lia]. }
  assert (Hbatch : below 53 (CostCalculation.batchDiscount
                               (costCalculation model it ot tt uc ratio ub lc)) = true).
  { rewrite batchDiscount_eq. destruct ub; [exact Hhalved | reflexivity]. }
  assert (Hbatchn : Num.nonneg (CostCalculation.batchDiscount
                                  (costCalculation model it ot tt uc ratio ub lc)) = true).
  { rewrite batchDiscount_eq. destruct ub; [ | reflexivity].
    apply mul_nonneg_posfin; assumption. }
  split; [apply (below_finite 49); exact Hin | ].
  split; [apply (below_finite 49); exact Hout | ].
  split.
  { rewrite baseCost_eq. apply (below_finite 55).
    apply (add_below 53); [assumption | | | | lia].
    - destruct (Num.gtb _ Num.zero); [assumption | reflexivity].
    - apply below_mono with (a := 51); [lia | assumption].
    - destruct (Num.gtb _ Num.zero); [assumption | reflexivity]. }
  split.
  { rewrite cacheDiscount_eq. destruct uc; [ | reflexivity].
    apply (below_finite 50). apply (sub_below 49); try assumption; [ | lia].
    apply below_mono with (a := 42); [lia | assumption]. }
  split; [apply (below_finite 53); exact Hbatch | ].
  split.
  { rewrite longContextPremium_eq. destruct lc; [ | reflexivity].
    apply (below_finite 39).
    apply (mul_below 2 36); [exact Hrate | exact Hquot | lia]. }
  rewrite finalCost_eq. destruct ub.
  - apply (below_finite 53). exact Hhalved.
  - apply (below_finite 51). exact Hsum.
Qed.

(** X13. For every catalogue model, token counts up to [2 ^ 53] and a hit
    ratio in [0, 1], every amount of the result is a finite number: the
    calculator never reports [Infinity] or [NaN]. *)
Theorem amounts_are_finite (key : string) (model : ClaudeModel.t)
    (it ot tt : number) (uc : bool) (ratio : number) (ub lc : bool) :
  get CLAUDE_MODELS key = Some model ->
  safe_count it = true -> safe_count ot = true -> safe_count tt = true ->
  hit_ratio ratio = true ->
  let r := costCalculation model it ot tt uc ratio ub lc in
  Num.finite (CostCalculation.inputCost r) = true
  /\ Num.finite (CostCalculation.outputCost r) = true
  /\ Num.finite (CostCalculation.baseCost r) = true
  /\ Num.finite (CostCalculation.cacheDiscount r) = true
  /\ Num.finite (CostCalculation.batchDiscount r) = true
  /\ Num.finite (CostCalculation.longContextPremium r) = true
  /\ Num.finite (CostCalculation.finalCost r) = true.
Proof. exact (amounts_finite_core key model it ot tt uc ratio ub lc). Qed.

Lemma amounts_are_finite_witness :
  Num.finite
    (CostCalculation.finalCost
       (costCalculation opus_4_5 (Num.of_Z 9007199254740992) (Num.of_Z 64000)
          (Num.of_Z 200000) true (Num.dec 9 1) true true)) = true.
Proof.
  assert (H1 : safe_count (Num.of_Z 9007199254740992) = true) by (vm_compute; reflexivity).
  assert (H2 : safe_count (Num.of_Z 64000) = true) by (vm_compute; reflexivity).
  assert (H3 : safe_count (Num.of_Z 200000) = true) by (vm_compute; reflexivity).
  assert (H4 : hit_ratio (Num.dec 9 1) = true) by (vm_compute; reflexivity).
  destruct (amounts_are_finite "opus_4_5" opus_4_5 (Num.of_Z 9007199254740992)
              (Num.of_Z 64000) (Num.of_Z 200000) true (Num.dec 9 1) true true
              eq_refl H1 H2 H3 H4) as (_ & _ & _ & _ & _ & _ & H).
  exact H.
Defined.

(** ** Integers as numbers *)

(** Rounding an exact mantissa that needs no shift returns it unchanged. *)
Lemma binary_round_aux_exact (s : bool) (p : positive) (e : Z) :
  fexp Num.prec Num.emax (Zdigits2 (Zpos p) + e) <= e -> e <= 971 ->
  binary_round_aux Num.prec Num.emax s (Zpos p) e loc_Exact = S754_finite s p e.
Proof.
  intros Hf He.
  assert (Hshift : shr_fexp Num.prec Num.emax (Zpos p) e loc_Exact
                   = (Build_shr_record (Zpos p) false false, e)).
  { unfold shr_fexp, shr. cbn [shr_record_of_loc].
    destruct (fexp Num.prec Num.emax (Zdigits2 (Zpos p) + e) - e) as [ | q | q ] eqn:E;
      [reflexivity | lia | reflexivity]. }
  unfold binary_round_aux. rewrite Hshift.
  cbn [shr_m loc_of_shr_record round_nearest_even]. rewrite Hshift. cbn [shr_m].
  replace (Z.leb e (Num.emax - Num.prec)) with true; [reflexivity | ].
  symmetry. apply Z.leb_le. exact He.
Qed.

(** The double of a positive integer below [2 ^ 53]: the integer itself,
    with its mantissa aligned to 53 digits. *)
Lemma of_Z_small (n : Z) :
  0 < n < 2 ^ 53 ->
  exists m : positive,
    Num.of_Z n = S754_finite false m (Zdigits2 n - 53)
    /\ Zpos m = n * 2 ^ (53 - Zdigits2 n)
    /\ Zdigits2 (Zpos m) = 53.
Proof.
  intros Hn. destruct n as [ | p | p ]; try lia.
  assert (Hd : Zdigits2 (Zpos p) <= 53) by (apply Zdigits2_le_of_lt_pow2; lia).
  assert (Hd1 : 0 < Zdigits2 (Zpos p)) by (cbn; lia).
  unfold Num.of_Z, binary_normalize, binary_round.
  destruct (shl_align_spec p 0 (fexp Num.prec Num.emax (Zpos (digits2_pos p) + 0)))
    as [Hsnd Hfst].
  destruct (shl_align p 0 _) as [mz ez]. cbn [fst snd] in Hsnd, Hfst.
  rewrite fexp64_eq in Hsnd, Hfst.
  change (Zpos (digits2_pos p)) with (Zdigits2 (Zpos p)) in Hsnd, Hfst.
  assert (Hez : ez = Zdigits2 (Zpos p) - 53) by lia.
  replace (0 - Z.min 0 (Z.max (Zdigits2 (Zpos p) + 0 - 53) (-1074)))
    with (53 - Zdigits2 (Zpos p)) in Hfst by lia.
  assert (Hdz : Zdigits2 (Zpos mz) = 53).
  { rewrite Hfst, Zdigits2_mul_pow2 by lia. lia. }
  exists mz. rewrite <- Hez. split; [ | split; assumption].
  apply binary_round_aux_exact; [ | lia].
  rewrite fexp64_eq. lia.
Qed.

(** Every integer from 0 to [2 ^ 53] is an admitted token count: its
    double is canonical, finite, non-negative and at most [2 ^ 53]; for a
    positive integer it is at least 1. *)
Lemma of_Z_token_count (n : Z) :
  0 <= n <= 2 ^ 53 ->
  token_count (Num.of_Z n) = true
  /\ safe_count (Num.of_Z n) = true
  /\ (1 <= n -> Num.leb Num.one (Num.of_Z n) = true).
Proof.
  intros Hn.
  destruct (Z.eq_dec n 0) as [-> | Hn0].
  { split; [reflexivity | ]. split; [reflexivity | lia]. }
  destruct (Z.eq_dec n (2 ^ 53)) as [-> | Hn53].
  { split; [vm_compute; reflexivity | ].
    split; [vm_compute; reflexivity | intros _; vm_compute; reflexivity]. }
  destruct (of_Z_small n ltac:(lia)) as (m & -> & Hm & Hdm).
  assert (Hd : Zdigits2 n <= 53) by (apply Zdigits2_le_of_lt_pow2; lia).
  assert (Hd1 : 0 < Zdigits2 n) by (destruct n; cbn; lia).
  assert (Htc : token_count (S754_finite false m (Zdigits2 n - 53)) = true).
  { unfold token_count, Num.valid, valid_binary, bounded, canonical_mantissa.
    cbn [Num.finite Num.nonneg]. rewrite !andb_true_r.
    change (Zpos (digits2_pos m)) with (Zdigits2 (Zpos m)).
    rewrite Hdm, fexp64_eq. apply andb_true_intro. split.
    - apply Z.eqb_eq. lia.
    - apply Z.leb_le. change (Num.emax - Num.prec) with 971. lia. }
  split; [exact Htc | ]. split.
  - unfold safe_count. rewrite Htc. cbn [andb].
    change (Num.of_Z 9007199254740992) with (S754_finite false 4503599627370496 1).
    unfold Num.leb, SFleb, SFcompare.
    destruct (Z.compare_spec (Zdigits2 n - 53) 1) as [E | E | E]; [lia | reflexivity | lia].
  - intros H1. rewrite one_eq. unfold Num.leb, SFleb, SFcompare.
    destruct (Z.compare_spec (-52) (Zdigits2 n - 53)) as [E | E | E];
      [ | reflexivity | lia].
    assert (Hdn : Zdigits2 n = 1) by lia.
    assert (Hb := Zdigits2_bounds n ltac:(lia)). rewrite Hdn in Hb.
    assert (n = 1) by (change (2 ^ 1) with 2 in Hb; lia). subst n.
    rewrite Pos.compare_cont_spec. cbn [Pos.switch_Eq].
    rewrite Pos2Z.inj_compare, Hm.
    change (Zdigits2 1) with 1. change (1 * 2 ^ (53 - 1)) with 4503599627370496.
    rewrite Z.compare_refl. reflexivity.
Qed.

(** X16. On integer token counts from 0 to [2 ^ 53] (non-negative
    integers, as the request schema asks for, converted to doubles), for
    every catalogue model, every combination of flags and every hit
    ratio in [0, 1]: the final cost is a finite number that is at least 0,
    every other amount is finite, and with at least one input token a
    model with long-context prices reports a strictly positive premium
    under long-context pricing. *)
Theorem integer_requests_are_priced (key : string) (model : ClaudeModel.t)
    (inputTokens outputTokens thinkingTokens : Z)
    (uc : bool) (ratio : number) (ub lc : bool) :
  get CLAUDE_MODELS key = Some model ->
  0 <= inputTokens <= 2 ^ 53 ->
  0 <= outputTokens <= 2 ^ 53 ->
  0 <= thinkingTokens <= 2 ^ 53 ->
  hit_ratio ratio = true ->
  let r := costCalculation model (Num.of_Z inputTokens) (Num.of_Z outputTokens)
             (Num.of_Z thinkingTokens) uc ratio ub lc in
  Num.finite (CostCalculation.finalCost r) = true
  /\ Num.leb Num.zero (CostCalculation.finalCost r) = true
  /\ Num.finite (CostCalculation.inputCost r) = true
  /\ Num.finite (CostCalculation.outputCost r) = true
  /\ Num.finite (CostCalculation.baseCost r) = true
  /\ Num.finite (CostCalculation.cacheDiscount r) = true
  /\ Num.finite (CostCalculation.batchDiscount r) = true
  /\ Num.finite (CostCalculation.longContextPremium r) = true
  /\ (lc = true -> 1 <= inputTokens ->
      is_truthy (ModelPricing.longContextInput (ClaudeModel.pricing model)) = true ->
      Num.gtb (CostCalculation.longContextPremium r) Num.zero = true).
Proof.
  intros Hk Hi Ho Ht Hr r. subst r.
  destruct (of_Z_token_count inputTokens Hi) as (Hic & His & Hi1).
  destruct (of_Z_token_count outputTokens Ho) as (Hoc & Hos & _).
  destruct (of_Z_token_count thinkingTokens Ht) as (Htc & Hts & _).
  destruct (amounts_finite_core key model _ _ _ uc ratio ub lc Hk His Hos Hts Hr)
    as (F1 & F2 & F3 & F4 & F5 & F6 & F7).
  split; [exact F7 | ].
  split.
  { apply nonneg_leb_zero. apply finalCost_nonneg with (key := key); assumption. }
  repeat (split; [assumption | ]).
  intros -> H1 Hlc.
  rewrite (long_context_models key model Hk Hlc).
  rewrite longContextPremium_eq, sonnet_premium_rate.
  destruct (token_count_elim _ Hic) as (Hv & Hf & Hn).
  specialize (Hi1 H1).
  destruct (Num.of_Z inputTokens) as [ s | s | | [ | ] mx ex ]; try discriminate.
  destruct (div_million_pos mx ex Hv Hi1) as [(p & e & -> & He) | ->].
  - apply mul_posfin_gt_zero. lia.
  - reflexivity.
Qed.

Lemma integer_requests_are_priced_witness :
  Num.finite
    (CostCalculation.finalCost
       (costCalculation sonnet_4_5 (Num.of_Z 250000) (Num.of_Z 4000) (Num.of_Z 16000)
          true (Num.dec 9 1) false true)) = true.
Proof.
  assert (Hr : hit_ratio (Num.dec 9 1) = true) by (vm_compute; reflexivity).
  assert (B : forall n, (0 <=? n) = true -> (n <=? 2 ^ 53) = true -> 0 <= n <= 2 ^ 53).
  { intros n H1 H2. apply Z.leb_le in H1, H2. split; assumption. }
  destruct (integer_requests_are_priced "sonnet_4_5" sonnet_4_5 250000 4000 16000
              true (Num.dec 9 1) false true eq_refl
              (B 250000 eq_refl eq_refl) (B 4000 eq_refl eq_refl)
              (B 16000 eq_refl eq_refl) Hr) as [H _].
  exact H.
Defined.
